(** * The DROP neural-module language: dates, date scoring and date comparison

    A shallow embedding of [semqa/domain_languages/drop/drop_language.py].

    Conventions of the embedding.
    - Python integers are [Z]; the fields of a [Date] are integers, with [-1]
      standing for "unknown".
    - A Python exception is a value of [Exception]; code that can raise returns
      a [result], threaded with the bind notation below.
    - A one-dimensional float tensor is a [list R] and a two-dimensional one a
      list of rows.  Floating-point numbers are read as real numbers: the
      arithmetic of the program is exact in the model.  Where a statement is
      about the probability mass of a log-probability, the rounding of the
      exponential to a binary floating-point number is written out
      ([float_exp]).
    - A validity mask is a tensor holding only [1.0] and [0.0]; it is a
      [list bool], turned into numbers by [mask_float] where the code
      multiplies with it.
    - The functions of [torch] and of [allennlp.nn.util] that the module calls
      are written out from the documentation of these libraries. *)

From Stdlib Require Import String Ascii ZArith List Bool Reals Lra Lia.
From Stdlib Require Import DecimalString DecimalZ.
Import ListNotations.

(** ** Exceptions and results *)

Inductive Exception : Type :=
| ExecutionError (msg : string)
| NotImplementedError
| RuntimeError (msg : string).

Inductive result (A : Type) : Type :=
| Ok (a : A)
| Raise (e : Exception).

Arguments Ok {A} a.
Arguments Raise {A} e.

Definition bind {A B : Type} (m : result A) (k : A -> result B) : result B :=
  match m with
  | Ok a => k a
  | Raise e => Raise e
  end.

Notation "x <- m ;; k" := (bind m (fun x => k))
  (at level 61, m at next level, right associativity).
Notation "' p <- m ;; k" := (bind m (fun x => let p := x in k))
  (at level 61, p pattern, m at next level, right associativity).

(** ** Dates *)

Module Date.

Open Scope Z_scope.

(** [class Date]: the three fields set by [__init__]. *)
Record t : Type := __init__ { year : Z; month : Z; day : Z }.

(** A Python object handed to a comparison as [other]: a [Date], or a value
    of another class. *)
Inductive PyObj : Type :=
| PyDate (d : t)
| PyInt (z : Z)
| PyBool (b : bool)
| PyStr (s : string)
| PyNone.

(** [isinstance(other, Date)] *)
Definition isinstance_Date (other : PyObj) : bool :=
  match other with
  | PyDate _ => true
  | _ => false
  end.

Definition type_error : Exception :=
  ExecutionError "Can only compare Dates with Dates".

(** The body of [Date.__eq__] below the [isinstance] test. *)
Definition eq_fields (self other : t) : bool :=
  let year_is_same :=
    (year self =? -1) || (year other =? -1) || (year self =? year other) in
  let month_is_same :=
    (month self =? -1) || (month other =? -1) || (month self =? month other) in
  let day_is_same :=
    (day self =? -1) || (day other =? -1) || (day self =? day other) in
  year_is_same && month_is_same && day_is_same.

Definition __eq__ (self : t) (other : PyObj) : result bool :=
  match other with
  | PyDate o => Ok (eq_fields self o)
  | _ => Raise type_error
  end.

(** The body of [Date.__gt__] below the [isinstance] test, one [if] of the
    source per [if] here. *)
Definition gt_fields (self other : t) : bool :=
  if xorb (year self =? -1) (year other =? -1) then
    if year self =? -1 then false else true
  else if negb (year self =? year other) then
    year self >? year other
  else if (month self =? -1) && (month other =? -1) then false
  else if month self =? -1 then false
  else if month other =? -1 then true
  else if negb (month self =? month other) then
    month self >? month other
  else if (day self =? -1) && (day other =? -1) then false
  else if day self =? -1 then false
  else if day other =? -1 then true
  else day self >? day other.

Definition __gt__ (self : t) (other : PyObj) : result bool :=
  match other with
  | PyDate o => Ok (gt_fields self o)
  | _ => Raise type_error
  end.

(** [Date.__ge__]: its own [isinstance] test, then [self > other or self == other];
    [or] evaluates its right operand only when the left one is false. *)
Definition __ge__ (self : t) (other : PyObj) : result bool :=
  if negb (isinstance_Date other) then Raise type_error
  else
    g <- __gt__ self other ;;
    if g then Ok true else __eq__ self other.

(** [a < b] on two dates.  [Date] defines no [__lt__], so Python evaluates
    the reflected method [b.__gt__(a)]. *)
Definition lt_fields (a b : t) : bool := gt_fields b a.

End Date.

(** ** Tensors *)

Open Scope R_scope.

Abbreviation Tensor1 := (list R).
Abbreviation Tensor2 := (list (list R)).

(** Element-wise combination of two tensors of the same shape. *)
Fixpoint zipWith {A B C : Type} (f : A -> B -> C) (u : list A) (v : list B)
  : list C :=
  match u, v with
  | x :: u', y :: v' => f x y :: zipWith f u' v'
  | _, _ => []
  end.

(** [u * v], [u + v] and [c * u] on one-dimensional tensors. *)
Definition tmul (u v : Tensor1) : Tensor1 := zipWith Rmult u v.
Definition tadd (u v : Tensor1) : Tensor1 := zipWith Rplus u v.
Definition tscale (c : R) (u : Tensor1) : Tensor1 := map (Rmult c) u.

(** [M * N] on two-dimensional tensors of the same shape. *)
Definition tmul2 (M N : Tensor2) : Tensor2 := zipWith tmul M N.

(** [u.sum()] *)
Definition tsum (u : Tensor1) : R := fold_right Rplus 0 u.

(** [M.sum()]: the sum of all entries. *)
Definition tsum2 (M : Tensor2) : R := tsum (map tsum M).

(** [M.sum(0)] for [M] of shape [(rows, cols)]: the sums of the columns. *)
Definition sum_dim0 (cols : nat) (M : Tensor2) : Tensor1 :=
  fold_right tadd (repeat 0 cols) M.

(** [M * u.unsqueeze(1)]: row [i] of [M] is scaled by [u[i]]. *)
Definition mul_unsqueeze1 (M : Tensor2) (u : Tensor1) : Tensor2 :=
  zipWith (fun row a => map (fun x => x * a) row) M u.

(** [M * u.unsqueeze(0)]: column [j] of [M] is scaled by [u[j]]. *)
Definition mul_unsqueeze0 (M : Tensor2) (u : Tensor1) : Tensor2 :=
  map (fun row => tmul row u) M.

(** [torch.matmul(u.unsqueeze(1), v.unsqueeze(0))]: the outer product. *)
Definition outer (u v : Tensor1) : Tensor2 :=
  map (fun x => map (fun y => x * y) v) u.

(** [x.new_zeros(n)] *)
Definition new_zeros (n : nat) : Tensor1 := repeat 0 n.

(** A mask as the float tensor the code multiplies with. *)
Definition b2r (b : bool) : R := if b then 1 else 0.
Definition mask_float (mask : list bool) : Tensor1 := map b2r mask.

(** [mask.long()] *)
Definition b2z (b : bool) : Z := if b then 1%Z else 0%Z.

(** [x.masked_fill(m, value)]: [value] wherever [m] is set. *)
Definition masked_fill (x : Tensor1) (m : list bool) (value : R) : Tensor1 :=
  zipWith (fun xi (mi : bool) => if mi then value else xi) x m.

(** [torch.nn.functional.softmax] and [log_softmax] over a vector. *)
Definition softmax (x : Tensor1) : Tensor1 :=
  map (fun xi => exp xi / tsum (map exp x)) x.

Definition log_softmax (x : Tensor1) : Tensor1 :=
  map (fun xi => xi - ln (tsum (map exp x))) x.

(** [self[i] += s] *)
Fixpoint add_at (i : nat) (s : R) (self : Tensor1) : Tensor1 :=
  match self, i with
  | [], _ => []
  | x :: self', O => (x + s) :: self'
  | x :: self', S i' => x :: add_at i' s self'
  end.

(** [self.scatter_add_(0, index, src)]: for every position [k] of [index],
    [self[index[k]] += src[k]].  torch raises when an index lies outside
    [self] or when [src] is shorter than [index]. *)
Fixpoint scatter_add_ (self : Tensor1) (index : list Z) (src : Tensor1)
  : result Tensor1 :=
  match index, src with
  | [], _ => Ok self
  | i :: index', s :: src' =>
      if ((0 <=? i)%Z && (i <? Z.of_nat (length self))%Z)%bool
      then scatter_add_ (add_at (Z.to_nat i) s self) index' src'
      else Raise (RuntimeError "index out of range in scatter_add_")
  | _ :: _, [] => Raise (RuntimeError "index is larger than src in scatter_add_")
  end.

(** [F.kl_div(input, target, reduction='mean')]: the point-wise terms
    [target * (log(target) - input)], taken as [0] where [target] is not
    positive, averaged over all elements. *)
Definition kl_div_pointwise (input target : R) : R :=
  if Rlt_dec 0 target then target * (ln target - input) else 0.

Definition kl_div_mean (input target : Tensor1) : R :=
  tsum (zipWith kl_div_pointwise input target) / INR (length input).

(** *** [allennlp.nn.util] *)

Definition mask_fill_value : R := -1e32.

(** [masked_softmax(vector, mask, memory_efficient=True)]: the positions
    outside the mask are filled with [mask_fill_value], then softmax. *)
Definition masked_softmax_memory_efficient (vector : Tensor1) (mask : list bool)
  : Tensor1 :=
  let masked_vector := masked_fill vector (map negb mask) mask_fill_value in
  softmax masked_vector.

(** [masked_log_softmax(vector, mask)]:
    [log_softmax(vector + (mask + 1e-45).log())]. *)
Definition masked_log_softmax (vector : Tensor1) (mask : list bool) : Tensor1 :=
  log_softmax (tadd vector (map (fun m => ln (m + 1e-45)) (mask_float mask))).

(** [replace_masked_values(tensor, mask, replace_with)]:
    [tensor.masked_fill((1 - mask).byte(), replace_with)]. *)
Definition replace_masked_values (tensor : Tensor1) (mask : list bool)
    (replace_with : R) : Tensor1 :=
  masked_fill tensor (map negb mask) replace_with.

(** ** The typed values that flow between predicates *)

Module PassageAttention.
Record t : Type := __init__ { _value : Tensor1 }.
End PassageAttention.

Module PassageAttention_answer.
Record t : Type := __init__ { _value : Tensor1; loss : R }.
End PassageAttention_answer.

Module PassageSpanAnswer.
Record t : Type := Build {
  start_logits : Tensor1;
  end_logits : Tensor1;
  _value : Tensor1 * Tensor1;
  loss : R
}.

Definition __init__ (passage_span_start_log_probs passage_span_end_log_probs
    start_logits end_logits : Tensor1) (loss : R) : t :=
  {| start_logits := start_logits;
     end_logits := end_logits;
     _value := (passage_span_start_log_probs, passage_span_end_log_probs);
     loss := loss |}.
End PassageSpanAnswer.

(** ** The learned parameters

    [ExecutorParameters] lives in [execution_parameters.py]; its learned
    modules are taken as functions on tensors, with the batch dimension that
    the callers add by [unsqueeze(0)] and drop by [squeeze(0)] left out.
    [passage_startend_predictor] is the two-output projection: one
    (start, end) pair of logits per token. *)
Record ExecutorParameters : Type := {
  passage_to_date_attention : Tensor2 -> Tensor2 -> Tensor2;
  _dropout : Tensor2 -> Tensor2;
  passage_attention_scalingvals : list R;
  passage_attention_to_span : Tensor2 -> list bool -> Tensor2;
  passage_startend_predictor : Tensor2 -> list (R * R)
}.

(** ** The language *)

Module DropLanguage.

(** The passage side of the state that [DropLanguage.__init__] sets. *)
Record t : Type := Build {
  passage : Tensor2;
  passage_mask : list bool;
  passage_tokenidx2dateidx : list Z;
  passage_date_values : list Date.t;
  num_passage_dates : nat;
  parameters : ExecutorParameters;
  date_lt_mat : Tensor2;
  date_gt_mat : Tensor2;
  passage_passage_token2date_similarity : Tensor2
}.

(** [compute_date_comparison_matrices]: entry [i][j] is [1.0] when
    [date_values[i] > date_values[j]] (resp. [<]) and [0.0] otherwise.  The
    elements are [Date]s, so the comparisons pass their [isinstance] test. *)
Definition compute_date_comparison_matrices (date_values : list Date.t)
  : Tensor2 * Tensor2 :=
  let date_gt_mat :=
    map (fun di => map (fun dj => if Date.gt_fields di dj then 1 else 0)
                       date_values) date_values in
  let date_lt_mat :=
    map (fun di => map (fun dj => if Date.lt_fields di dj then 1 else 0)
                       date_values) date_values in
  (date_gt_mat, date_lt_mat).

(** [compute_passage_token2date_similarity] *)
Definition compute_passage_token2date_similarity
    (parameters : ExecutorParameters) (passage : Tensor2)
    (passage_mask : list bool) : Tensor2 :=
  let sim := _dropout parameters
               (passage_to_date_attention parameters passage passage) in
  let sim := mul_unsqueeze0 sim (mask_float passage_mask) in
  let sim := mul_unsqueeze1 sim (mask_float passage_mask) in
  let plen := length passage_mask in
  let sim := map (map (fun x => x / INR plen)) sim in
  map (map tanh) sim.

(** [__init__] followed by [initialize], for an instance with a question
    (the placeholder built from [embedded_question=None] holds no state). *)
Definition __init__ (embedded_passage encoded_passage : Tensor2)
    (passage_mask : list bool) (passage_tokenidx2dateidx : list Z)
    (passage_date_values : list Date.t) (parameters : ExecutorParameters)
    (passage_to_use : string) : result t :=
  passage <-
    (if (passage_to_use =? "embedded")%string then Ok embedded_passage
     else if (passage_to_use =? "encoded")%string then Ok encoded_passage
     else Raise NotImplementedError) ;;
  let '(date_gt_mat, date_lt_mat) :=
    compute_date_comparison_matrices passage_date_values in
  Ok {| passage := passage;
        passage_mask := passage_mask;
        passage_tokenidx2dateidx := passage_tokenidx2dateidx;
        passage_date_values := passage_date_values;
        num_passage_dates := length passage_date_values;
        parameters := parameters;
        date_lt_mat := date_lt_mat;
        date_gt_mat := date_gt_mat;
        passage_passage_token2date_similarity :=
          compute_passage_token2date_similarity parameters passage
                                                passage_mask |}.

(** [passage_datetoken_attention] of [compute_date_scores]: the similarity
    rows weighted by the attention and summed over the rows. *)
Definition passage_datetoken_attention (self : t) (passage_attention : Tensor1)
  : Tensor1 :=
  let passage_passage_tokendate_attention :=
    mul_unsqueeze1 (passage_passage_token2date_similarity self)
                   passage_attention in
  sum_dim0 (length (passage_mask self)) passage_passage_tokendate_attention.

(** [compute_date_scores] *)
Definition compute_date_scores (self : t) (passage_attention : Tensor1)
  : result (Tensor1 * Tensor1) :=
  let passage_datetoken_attention :=
    passage_datetoken_attention self passage_attention in
  let passage_tokenidx2dateidx_mask :=
    map (fun i => (i >? -1)%Z) (passage_tokenidx2dateidx self) in
  let masked_passage_tokenidx2dateidx :=
    zipWith Z.mul (map b2z passage_tokenidx2dateidx_mask)
            (passage_tokenidx2dateidx self) in
  (* masked_passage_datetoken_scores is computed by the source and not used *)
  let masked_passage_datetoken_probs :=
    masked_softmax_memory_efficient passage_datetoken_attention
                                    passage_tokenidx2dateidx_mask in
  let date_distribution := new_zeros (num_passage_dates self) in
  date_distribution <-
    scatter_add_ date_distribution masked_passage_tokenidx2dateidx
                 masked_passage_datetoken_probs ;;
  let date_scores := date_distribution in
  Ok (date_distribution, date_scores).

(** [expected_date_comparison] *)
Definition expected_date_comparison (self : t)
    (date_distribution_1 date_distribution_2 : Tensor1) (comparison : string)
  : result R :=
  let joint_dist := outer date_distribution_1 date_distribution_2 in
  if (comparison =? "greater")%string then
    Ok (tsum2 (tmul2 (date_gt_mat self) joint_dist))
  else if (comparison =? "lesser")%string then
    Ok (tsum2 (tmul2 (date_lt_mat self) joint_dist))
  else Raise NotImplementedError.

(** The entropy term of the comparison predicates:
    [-1 * torch.sum(d * torch.log(d + 1e-40))]. *)
Definition entropy_term (d : Tensor1) : R :=
  -1 * tsum (tmul d (map (fun x => ln (x + 1e-40)) d)).

(** [compare_date_greater_than] *)
Definition compare_date_greater_than (self : t)
    (passage_attn_1 passage_attn_2 : PassageAttention.t)
  : result PassageAttention_answer.t :=
  let passage_attention_1 :=
    tmul (PassageAttention._value passage_attn_1)
         (mask_float (passage_mask self)) in
  let passage_attention_2 :=
    tmul (PassageAttention._value passage_attn_2)
         (mask_float (passage_mask self)) in
  '(date_distribution_1, _) <- compute_date_scores self passage_attention_1 ;;
  '(date_distribution_2, _) <- compute_date_scores self passage_attention_2 ;;
  let kl_div_neg_1_2 :=
    -1 * kl_div_mean date_distribution_1 date_distribution_2 in
  let kl_div_neg_2_1 :=
    -1 * kl_div_mean date_distribution_2 date_distribution_1 in
  let dist1_entropy := entropy_term date_distribution_1 in
  let dist2_entropy := entropy_term date_distribution_2 in
  prob_date1_greater <-
    expected_date_comparison self date_distribution_1 date_distribution_2
                             "greater" ;;
  let average_passage_distribution :=
    tadd (tscale prob_date1_greater passage_attention_1)
         (tscale (1 - prob_date1_greater) passage_attention_2) in
  let loss := dist1_entropy + dist2_entropy + kl_div_neg_1_2 + kl_div_neg_2_1 in
  Ok (PassageAttention_answer.__init__ average_passage_distribution loss).

(** [compare_date_lesser_than] *)
Definition compare_date_lesser_than (self : t)
    (passage_attn_1 passage_attn_2 : PassageAttention.t)
  : result PassageAttention_answer.t :=
  let passage_attention_1 :=
    tmul (PassageAttention._value passage_attn_1)
         (mask_float (passage_mask self)) in
  let passage_attention_2 :=
    tmul (PassageAttention._value passage_attn_2)
         (mask_float (passage_mask self)) in
  '(date_distribution_1, _) <- compute_date_scores self passage_attention_1 ;;
  '(date_distribution_2, _) <- compute_date_scores self passage_attention_2 ;;
  let kl_div_neg_1_2 :=
    -1 * kl_div_mean date_distribution_1 date_distribution_2 in
  let kl_div_neg_2_1 :=
    -1 * kl_div_mean date_distribution_2 date_distribution_1 in
  let dist1_entropy := entropy_term date_distribution_1 in
  let dist2_entropy := entropy_term date_distribution_2 in
  let loss := dist1_entropy + dist2_entropy + kl_div_neg_1_2 + kl_div_neg_2_1 in
  prob_date1_greater <-
    expected_date_comparison self date_distribution_1 date_distribution_2
                             "lesser" ;;
  let prob_date1_lesser := 1 - prob_date1_greater in
  let average_passage_distribution :=
    tadd (tscale prob_date1_lesser passage_attention_1)
         (tscale (1 - prob_date1_lesser) passage_attention_2) in
  Ok (PassageAttention_answer.__init__ average_passage_distribution loss).

(** [passage_span_logits] of [find_passageSpanAnswer]: the (start, end)
    logits that the learned modules give for the masked attention. *)
Definition passage_span_logits (self : t)
    (passage_attention : PassageAttention_answer.t) : list (R * R) :=
  let passage_attn := PassageAttention_answer._value passage_attention in
  let passage_attn := tmul passage_attn (mask_float (passage_mask self)) in
  (* torch.stack(scaled_attentions, dim=1): one row of rescaled values per token *)
  let scaled_passage_attentions :=
    map (fun a => map (fun sf => a * sf)
                      (passage_attention_scalingvals (parameters self)))
        passage_attn in
  let passage_span_hidden_reprs :=
    passage_attention_to_span (parameters self) scaled_passage_attentions
                              (passage_mask self) in
  passage_startend_predictor (parameters self) passage_span_hidden_reprs.

(** [find_passageSpanAnswer] *)
Definition find_passageSpanAnswer (self : t)
    (passage_attention : PassageAttention_answer.t) : PassageSpanAnswer.t :=
  let passage_span_logits := passage_span_logits self passage_attention in
  let span_start_logits := map fst passage_span_logits in
  let span_end_logits := map snd passage_span_logits in
  let span_start_logits :=
    replace_masked_values span_start_logits (passage_mask self) (-1e32) in
  let span_end_logits :=
    replace_masked_values span_end_logits (passage_mask self) (-1e32) in
  let span_start_log_probs :=
    masked_log_softmax span_start_logits (passage_mask self) in
  let span_end_log_probs :=
    masked_log_softmax span_end_logits (passage_mask self) in
  let span_start_log_probs :=
    replace_masked_values span_start_log_probs (passage_mask self) (-1e32) in
  let span_end_log_probs :=
    replace_masked_values span_end_log_probs (passage_mask self) (-1e32) in
  let loss := PassageAttention_answer.loss passage_attention in
  PassageSpanAnswer.__init__ span_start_log_probs span_end_log_probs
                             span_start_logits span_end_logits loss.

(** The weight on attention-1 in the blend of [compare_date_greater_than]:
    its local [prob_date1_greater]. *)
Definition greater_than_weight (self : t)
    (passage_attn_1 passage_attn_2 : PassageAttention.t) : result R :=
  let passage_attention_1 :=
    tmul (PassageAttention._value passage_attn_1)
         (mask_float (passage_mask self)) in
  let passage_attention_2 :=
    tmul (PassageAttention._value passage_attn_2)
         (mask_float (passage_mask self)) in
  '(date_distribution_1, _) <- compute_date_scores self passage_attention_1 ;;
  '(date_distribution_2, _) <- compute_date_scores self passage_attention_2 ;;
  expected_date_comparison self date_distribution_1 date_distribution_2
                           "greater".

(** The weight on attention-1 in the blend of [compare_date_lesser_than]:
    its local [prob_date1_lesser]. *)
Definition lesser_than_weight (self : t)
    (passage_attn_1 passage_attn_2 : PassageAttention.t) : result R :=
  let passage_attention_1 :=
    tmul (PassageAttention._value passage_attn_1)
         (mask_float (passage_mask self)) in
  let passage_attention_2 :=
    tmul (PassageAttention._value passage_attn_2)
         (mask_float (passage_mask self)) in
  '(date_distribution_1, _) <- compute_date_scores self passage_attention_1 ;;
  '(date_distribution_2, _) <- compute_date_scores self passage_attention_2 ;;
  prob_date1_greater <-
    expected_date_comparison self date_distribution_1 date_distribution_2
                             "lesser" ;;
  Ok (1 - prob_date1_greater).

(** The index a token scatters its probability to:
    [passage_tokenidx2dateidx_mask.long() * passage_tokenidx2dateidx]. *)
Definition scatter_index (i : Z) : Z := (b2z (i >? -1) * i)%Z.

(** Shapes agree: the token-to-date map, the similarity matrix and its rows
    have the length of the passage, and every index the code scatters to
    lies inside the date list. *)
Definition well_formed (self : t) : Prop :=
  let plen := length (passage_mask self) in
  length (passage_tokenidx2dateidx self) = plen /\
  length (passage_passage_token2date_similarity self) = plen /\
  Forall (fun row => length row = plen)
         (passage_passage_token2date_similarity self) /\
  Forall (fun i => (scatter_index i < Z.of_nat (num_passage_dates self))%Z)
         (passage_tokenidx2dateidx self).

End DropLanguage.

(** ** Notions used by the statements *)

(** [big_sum n f] is [f 0 + ... + f (n-1)]. *)
Definition big_sum (n : nat) (f : nat -> R) : R := tsum (map f (seq 0 n)).

(** Entry [i][j] of a matrix, and its transpose with [cols] columns. *)
Definition entry (M : Tensor2) (i j : nat) : R := nth j (nth i M []) 0.

Definition transpose (cols : nat) (M : Tensor2) : Tensor2 :=
  map (fun j => map (fun row => nth j row 0) M) (seq 0 cols).

(** The boolean "greater" predicate on the dates [i] and [j] of a list, as
    a number. *)
Definition date_greater (dates : list Date.t) (i j : nat) : R :=
  match nth_error dates i, nth_error dates j with
  | Some a, Some b => if Date.gt_fields a b then 1 else 0
  | _, _ => 0
  end.

(** The blend of two attentions with weight [p] on the first. *)
Definition blend (p : R) (u v : Tensor1) : Tensor1 :=
  zipWith (fun x y => p * x + (1 - p) * y) u v.

(** Shannon entropy with the floor [1e-40] added inside the logarithm. *)
Definition shannon_entropy (d : Tensor1) : R :=
  - big_sum (length d) (fun i => nth i d 0 * ln (nth i d 0 + 1e-40)).

(** The Kullback-Leibler divergence from [p] to [q]: the sum of
    [p_i * ln (p_i / q_i)] over the support of [p]. *)
Definition KL (p q : Tensor1) : R :=
  big_sum (length p)
    (fun i => if Rlt_dec 0 (nth i p 0)
              then nth i p 0 * ln (nth i p 0 / nth i q 0) else 0).

(** The field-wise reading of date equality: a field agrees when it is
    unknown on one side or equal on both. *)
Definition field_matches (x y : Z) : Prop :=
  x = (-1)%Z \/ y = (-1)%Z \/ x = y.

Definition matches (a b : Date.t) : Prop :=
  field_matches (Date.year a) (Date.year b) /\
  field_matches (Date.month a) (Date.month b) /\
  field_matches (Date.day a) (Date.day b).

(** *** Floating point

    The tensors of the program hold IEEE 754 binary floating-point numbers,
    binary32 by default.  The finite numbers of a binary format with [prec]
    digits are the [m * 2^e] with [|m| < 2^prec] and [emin <= e <= emax];
    the smallest positive one is [2^emin]. *)
Definition binary_float (prec emin emax : Z) (x : R) : Prop :=
  exists m e : Z,
    (Z.abs m < 2 ^ prec)%Z /\ (emin <= e <= emax)%Z
    /\ x = IZR m * powerRZ 2 e.

Definition binary32 : R -> Prop := binary_float 24 (-149) 104.

Definition binary64 : R -> Prop := binary_float 53 (-1074) 971.

(** Rounding to nearest: [f] is a number of the format, and no number of the
    format is closer to [r]. *)
Definition round_to_nearest (format : R -> Prop) (r f : R) : Prop :=
  format f /\ forall g, format g -> Rabs (f - r) <= Rabs (g - r).

(** [p] is the probability mass of the log-probability [x] in a tensor of
    the format: the exponential of [x], rounded to nearest. *)
Definition float_exp (format : R -> Prop) (x p : R) : Prop :=
  round_to_nearest format (exp x) p.

(** A log-probability without probability mass: in binary32 and in binary64
    its mass is zero and nothing else. *)
Definition no_probability_mass (x : R) : Prop :=
  (forall p, float_exp binary32 x p <-> p = 0)
  /\ (forall p, float_exp binary64 x p <-> p = 0).

(** ** Concrete instances *)

Module Examples.

(** Dot-product attention, dropout switched off, and a span head that reads
    the rescaled attentions directly. *)
Definition dot_attention (P Q : Tensor2) : Tensor2 :=
  map (fun p => map (fun q => tsum (tmul p q)) Q) P.

Definition params : ExecutorParameters :=
  {| passage_to_date_attention := dot_attention;
     _dropout := fun x => x;
     passage_attention_scalingvals := [1; 2; 5; 10];
     passage_attention_to_span := fun x _ => x;
     passage_startend_predictor :=
       map (fun row => (tsum row, - tsum row)) |}.

Definition d2001 : Date.t := Date.__init__ 2001 1 1.
Definition d2002 : Date.t := Date.__init__ 2002 1 1.

(** The instance that [DropLanguage.__init__] builds from the encoded
    passage with these parameters. *)
Definition build (passage : Tensor2) (passage_mask : list bool)
    (passage_tokenidx2dateidx : list Z) (passage_date_values : list Date.t)
  : DropLanguage.t :=
  {| DropLanguage.passage := passage;
     DropLanguage.passage_mask := passage_mask;
     DropLanguage.passage_tokenidx2dateidx := passage_tokenidx2dateidx;
     DropLanguage.passage_date_values := passage_date_values;
     DropLanguage.num_passage_dates := length passage_date_values;
     DropLanguage.parameters := params;
     DropLanguage.date_lt_mat :=
       snd (DropLanguage.compute_date_comparison_matrices passage_date_values);
     DropLanguage.date_gt_mat :=
       fst (DropLanguage.compute_date_comparison_matrices passage_date_values);
     DropLanguage.passage_passage_token2date_similarity :=
       DropLanguage.compute_passage_token2date_similarity params passage
                                                          passage_mask |}.

(** A passage of one token, which is the date 2001/1/1. *)
Definition one_date : DropLanguage.t := build [[1]] [true] [0%Z] [d2001].

(** A passage of two tokens: the dates 2001/1/1 and 2002/1/1. *)
Definition two_dates : DropLanguage.t :=
  build [[1; 0]; [0; 1]] [true; true] [0%Z; 1%Z] [d2001; d2002].

(** A passage of one token that is not a date, with one date in the list. *)
Definition no_date_token : DropLanguage.t :=
  build [[1]] [true] [(-1)%Z] [d2001].

(** A passage of two tokens, both outside the validity mask. *)
Definition all_masked : DropLanguage.t :=
  build [[1]; [1]] [false; false] [(-1)%Z; (-1)%Z] [d2001].

(** Attentions: all weight on the only token, on the first of two tokens,
    and on the second of two tokens. *)
Definition on_only_token : PassageAttention.t :=
  PassageAttention.__init__ [1].
Definition on_first_token : PassageAttention.t :=
  PassageAttention.__init__ [1; 0].
Definition on_second_token : PassageAttention.t :=
  PassageAttention.__init__ [0; 1].

(** An attention with its threaded loss, over two tokens. *)
Definition answer_on_two_tokens : PassageAttention_answer.t :=
  PassageAttention_answer.__init__ [1; 1] 0.

End Examples.

(** ** Printing a date *)

Module DateStr.

(** [str(n)] of a Python integer: its decimal digits, after a [-] when it
    is negative. *)
Definition str (n : Z) : string := NilEmpty.string_of_int (Z.to_int n).

(** [Date.__str__]: the f-string [{self.year}/{self.month}/{self.day}]. *)
Definition __str__ (self : Date.t) : string :=
  (str (Date.year self) ++ "/" ++ str (Date.month self) ++ "/"
   ++ str (Date.day self))%string.

(** Whether the character [c] occurs in [s]. *)
Fixpoint occurs (c : ascii) (s : string) : bool :=
  match s with
  | EmptyString => false
  | String a s' => Ascii.eqb a c || occurs c s'
  end.

End DateStr.

(** ** The question side of the language *)

Module QuestionAttention.
Record t : Type := __init__ { _value : Tensor1 }.
End QuestionAttention.

Module Question.

(** [ExecutorParameters] with the question-passage scorer
    [dotprod_matrix_attn] that it also holds. *)
Record Parameters : Type := {
  executor : ExecutorParameters;
  dotprod_matrix_attn : Tensor2 -> Tensor2 -> Tensor2
}.

(** The state of a [DropLanguage] built with a question: the passage side
    and the question attributes that [__init__] sets.  [question] stays
    unset when [question_to_use] is neither ['embedded'] nor ['encoded']. *)
Record t : Type := Build {
  passage_side : DropLanguage.t;
  question_mask : list bool;
  question : option Tensor2;
  question_passage_attention : Tensor2
}.

(** [compute_question_passage_similarity]: the scores of every question
    token against the passage, after dropout, normalised over the passage by
    the memory-efficient masked softmax, row by row. *)
Definition compute_question_passage_similarity (parameters : Parameters)
    (rawemb_question rawemb_passage : Tensor2) (passage_mask : list bool)
  : Tensor2 :=
  let question_passage_similarity :=
    dotprod_matrix_attn parameters rawemb_question rawemb_passage in
  let question_passage_similarity :=
    _dropout (executor parameters) question_passage_similarity in
  map (fun row => masked_softmax_memory_efficient row passage_mask)
      question_passage_similarity.

(** [DropLanguage.__init__] with its question arguments.  Without an
    embedded question it returns at once, leaving a placeholder without
    state ([None] here); otherwise it sets the passage side, which raises on
    an unsupported [passage_to_use], then the question side. *)
Definition __init__ (rawemb_question : Tensor2)
    (embedded_question : option Tensor2) (encoded_question : Tensor2)
    (rawemb_passage embedded_passage encoded_passage : Tensor2)
    (question_mask passage_mask : list bool)
    (passage_tokenidx2dateidx : list Z) (passage_date_values : list Date.t)
    (parameters : Parameters) (question_to_use passage_to_use : string)
  : result (option t) :=
  match embedded_question with
  | None => Ok None
  | Some embedded_question =>
      passage_side <-
        DropLanguage.__init__ embedded_passage encoded_passage passage_mask
          passage_tokenidx2dateidx passage_date_values (executor parameters)
          passage_to_use ;;
      let question :=
        if (question_to_use =? "embedded")%string then Some embedded_question
        else if (question_to_use =? "encoded")%string then Some encoded_question
        else None in
      Ok (Some {| passage_side := passage_side;
                  question_mask := question_mask;
                  question := question;
                  question_passage_attention :=
                    compute_question_passage_similarity parameters
                      rawemb_question rawemb_passage passage_mask |})
  end.

(** [find_QuestionAttention] *)
Definition find_QuestionAttention (self : t) (question_attention : Tensor1)
  : QuestionAttention.t :=
  QuestionAttention.__init__ question_attention.

(** [find_PassageAttention] *)
Definition find_PassageAttention (self : t) (question_attention : Tensor1)
  : PassageAttention.t :=
  let question_attention :=
    tmul question_attention (mask_float (question_mask self)) in
  let question_passage_attention :=
    mul_unsqueeze1 (question_passage_attention self) question_attention in
  let passage_attention :=
    sum_dim0 (length (DropLanguage.passage_mask (passage_side self)))
             question_passage_attention in
  PassageAttention.__init__ passage_attention.

(** Shapes agree on the question side: one attention row per question
    token, each over the passage. *)
Definition well_formed (self : t) : Prop :=
  length (question_passage_attention self) = length (question_mask self)
  /\ Forall (fun row =>
               length row = length (DropLanguage.passage_mask (passage_side self)))
            (question_passage_attention self).

End Question.

(** ** More concrete instances *)

Module MoreExamples.

Definition parameters : Question.Parameters :=
  {| Question.executor := Examples.params;
     Question.dotprod_matrix_attn := Examples.dot_attention |}.

(** A passage of one token that is not a date, and no date at all. *)
Definition no_dates : DropLanguage.t :=
  Examples.build [[1]] [true] [(-1)%Z] [].

(** A passage of two tokens of which only the first is valid. *)
Definition second_masked : DropLanguage.t :=
  Examples.build [[1; 0]; [0; 1]] [true; false] [0%Z; 1%Z]
                 [Examples.d2001; Examples.d2002].

(** The two-date passage with a question of two tokens, the second of
    which is padding. *)
Definition with_question : Question.t :=
  {| Question.passage_side := Examples.two_dates;
     Question.question_mask := [true; false];
     Question.question := Some [[1; 0]; [0; 1]];
     Question.question_passage_attention :=
       Question.compute_question_passage_similarity parameters
         [[1; 0]; [0; 1]] [[1; 0]; [0; 1]] [true; true] |}.

(** A passage of three tokens: two mentions of 2001/1/1 and one of
    2002/1/1. *)
Definition repeated_date : DropLanguage.t :=
  Examples.build [[1]; [1]; [1]] [true; true; true] [0%Z; 0%Z; 1%Z]
                 [Examples.d2001; Examples.d2002].

End MoreExamples.

(** ** Notions used by the further statements *)

(** A date none of whose fields is the unknown [-1]. *)
Definition fully_specified (d : Date.t) : Prop :=
  Date.year d <> (-1)%Z /\ Date.month d <> (-1)%Z /\ Date.day d <> (-1)%Z.

(** A vector of probabilities: no entry is negative and the entries sum to
    one. *)
Definition distribution (d : Tensor1) : Prop :=
  Forall (fun x => 0 <= x) d /\ tsum d = 1.

(** The probability mass that a vector of log-probabilities puts on the
    positions inside a mask. *)
Definition valid_mass (log_probs : Tensor1) (mask : list bool) : R :=
  tsum (zipWith (fun lp (m : bool) => if m then exp lp else 0) log_probs mask).

(** * Properties *)

(** ** Dates *)

Section DateProperties.

Import Date.
Open Scope Z_scope.

Ltac date_cases :=
  repeat match goal with
  | |- context [?x =? ?y] => destruct (Z.eqb_spec x y)
  | |- context [?x >? ?y] => destruct (Z.gtb_spec x y)
  end; simpl; try reflexivity; try discriminate; try lia.

Lemma eq_fields_matches (a b : Date.t) : eq_fields a b = true <-> matches a b.
Proof.
  unfold eq_fields, matches, field_matches.
  rewrite !andb_true_iff, !orb_true_iff, !Z.eqb_eq. tauto.
Qed.

Lemma gt_fields_asym (a b : Date.t) : gt_fields a b && gt_fields b a = false.
Proof.
  destruct a as [ya ma da], b as [yb mb db]; unfold gt_fields; simpl.
  date_cases.
Qed.

Lemma gt_fields_irrefl (a : Date.t) : gt_fields a a = false.
Proof.
  generalize (gt_fields_asym a a). destruct (gt_fields a a); simpl; congruence.
Qed.

(** C5: date equality is field-wise, the unknown sentinel [-1] matching
    anything: on two dates [==] never raises and is true exactly when each of
    year, month and day is [-1] on one side or equal on both.  It is therefore
    not transitive: 2018/-1/-1 equals both 2018/2/3 and 2018/4/5, which are
    not equal to each other. *)
Theorem Date_eq_fieldwise_not_transitive :
  (forall a b : Date.t,
      exists v, __eq__ a (PyDate b) = Ok v /\ (v = true <-> matches a b))
  /\ __eq__ (__init__ 2018 (-1) (-1)) (PyDate (__init__ 2018 2 3)) = Ok true
  /\ __eq__ (__init__ 2018 (-1) (-1)) (PyDate (__init__ 2018 4 5)) = Ok true
  /\ __eq__ (__init__ 2018 2 3) (PyDate (__init__ 2018 4 5)) = Ok false.
Proof.
  split; [| repeat split].
  intros a b. exists (eq_fields a b). split; [reflexivity |].
  apply eq_fields_matches.
Qed.

(** C6: the ordering [>] is asymmetric: on any two dates, whatever fields are
    unknown, both comparisons return and they are never both true. *)
Theorem Date_gt_asymmetric :
  forall a b : Date.t,
    exists x y, __gt__ a (PyDate b) = Ok x /\ __gt__ b (PyDate a) = Ok y
                /\ x && y = false.
Proof.
  intros a b. exists (gt_fields a b), (gt_fields b a).
  repeat split. apply gt_fields_asym.
Qed.

(** C7: [>] on two dates returns a boolean, deciding on year, then month,
    then day, at the first field that differs.  When exactly one year is
    unknown the date with the unknown year is the lesser one.  When the years
    tie (equal, or both unknown) the months decide: an unknown month on the
    left, so also on both sides, gives False; an unknown month on the right
    only gives True.  When years and months tie and are known the days decide
    in the same way.  2020/1/1 > 2019/1/1 is True and
    2020/-1/1 > 2020/6/1 is False. *)
Theorem Date_gt_lexicographic :
  forall a b : Date.t,
    __gt__ a (PyDate b) = Ok (gt_fields a b)
    /\ (year a = -1 -> year b <> -1 -> gt_fields a b = false)
    /\ (year a <> -1 -> year b = -1 -> gt_fields a b = true)
    /\ (year a <> -1 -> year b <> -1 -> year a <> year b ->
        gt_fields a b = (year a >? year b))
    /\ (year a = year b ->
        (month a = -1 -> gt_fields a b = false)
        /\ (month a <> -1 -> month b = -1 -> gt_fields a b = true)
        /\ (month a <> -1 -> month b <> -1 -> month a <> month b ->
            gt_fields a b = (month a >? month b))
        /\ (month a = month b -> month a <> -1 ->
            (day a = -1 -> gt_fields a b = false)
            /\ (day a <> -1 -> day b = -1 -> gt_fields a b = true)
            /\ (day a <> -1 -> day b <> -1 ->
                gt_fields a b = (day a >? day b))))
    /\ gt_fields (__init__ 2020 1 1) (__init__ 2019 1 1) = true
    /\ gt_fields (__init__ 2020 (-1) 1) (__init__ 2020 6 1) = false.
Proof.
  intros [ya ma da] [yb mb db]; simpl.
  split; [reflexivity |].
  unfold gt_fields; simpl.
  repeat split; intros; subst; date_cases.
Qed.

(** The unknown month of 2020/-1/1 is penalised against 2020/6/1. *)
Lemma Date_gt_lexicographic_witness :
  gt_fields (__init__ 2020 (-1) 1) (__init__ 2020 6 1) = false.
Proof.
  destruct (Date_gt_lexicographic (__init__ 2020 (-1) 1) (__init__ 2020 6 1))
    as (_ & _ & _ & _ & Hties & _).
  destruct (Hties eq_refl) as (Hmonth & _).
  exact (Hmonth eq_refl).
Defined.

(** C9: [==], [>] and [>=] between a date and a value that is not a date
    raise [ExecutionError "Can only compare Dates with Dates"]; between two
    dates they return a boolean, so nothing else raises. *)
Theorem Date_compare_raises_iff_not_Date :
  forall (self : Date.t) (other : PyObj),
    match other with
    | PyDate _ =>
        (exists v, __eq__ self other = Ok v)
        /\ (exists v, __gt__ self other = Ok v)
        /\ (exists v, __ge__ self other = Ok v)
    | _ =>
        __eq__ self other
          = Raise (ExecutionError "Can only compare Dates with Dates")
        /\ __gt__ self other
          = Raise (ExecutionError "Can only compare Dates with Dates")
        /\ __ge__ self other
          = Raise (ExecutionError "Can only compare Dates with Dates")
    end.
Proof.
  intros self [o | z | b | s | ]; try (repeat split; reflexivity).
  split; [eexists; reflexivity |].
  split; [eexists; reflexivity |].
  unfold __ge__; simpl.
  destruct (gt_fields self o); eexists; reflexivity.
Qed.

End DateProperties.

(** ** Lists, sums and matrices *)

Section TensorLemmas.

Arguments tsum : simpl never.

Lemma zipWith_length {A B C : Type} (f : A -> B -> C) (u : list A) (v : list B) :
  length (zipWith f u v) = Nat.min (length u) (length v).
Proof.
  revert v; induction u as [| x u IH]; intros [| y v]; simpl; auto.
Qed.

Lemma zipWith_nth {A B C : Type} (f : A -> B -> C) (u : list A) (v : list B)
    (i : nat) (da : A) (db : B) (dc : C) :
  (i < length u)%nat -> (i < length v)%nat ->
  nth i (zipWith f u v) dc = f (nth i u da) (nth i v db).
Proof.
  revert v i; induction u as [| x u IH]; intros [| y v] [| i]; simpl;
    try lia; auto.
  intros Hu Hv. apply IH; lia.
Qed.

Lemma map_nth_in {A B : Type} (f : A -> B) (l : list A) (i : nat) (da : A) (db : B) :
  (i < length l)%nat -> nth i (map f l) db = f (nth i l da).
Proof.
  revert i; induction l as [| x l IH]; intros [| i]; simpl; try lia; auto.
  intros H. apply IH; lia.
Qed.

Lemma map_seq_nth {A B : Type} (g : A -> B) (l : list A) (d : A) :
  map (fun j => g (nth j l d)) (seq 0 (length l)) = map g l.
Proof.
  induction l as [| x l IH]; simpl; [reflexivity |].
  f_equal. rewrite <- seq_shift, map_map. exact IH.
Qed.

Lemma tsum_app (u v : Tensor1) : tsum (u ++ v) = tsum u + tsum v.
Proof.
  unfold tsum. induction u as [| x u IH]; simpl; lra.
Qed.

Lemma tsum_repeat0 (n : nat) : tsum (repeat 0 n) = 0.
Proof.
  unfold tsum. induction n as [| n IH]; simpl; lra.
Qed.

Lemma tsum_big_sum (u : Tensor1) :
  tsum u = big_sum (length u) (fun i => nth i u 0).
Proof.
  unfold big_sum. rewrite (map_seq_nth (fun x => x) u 0), map_id. reflexivity.
Qed.

Lemma big_sum_ext (n : nat) (f g : nat -> R) :
  (forall i, (i < n)%nat -> f i = g i) -> big_sum n f = big_sum n g.
Proof.
  intros H. unfold big_sum. f_equal. apply map_ext_in.
  intros i Hi. apply in_seq in Hi. apply H. lia.
Qed.

Lemma tsum_map_big_sum {A : Type} (f : A -> R) (l : list A) (d : A) :
  tsum (map f l) = big_sum (length l) (fun i => f (nth i l d)).
Proof.
  unfold big_sum. now rewrite map_seq_nth.
Qed.

End TensorLemmas.

(** ** The date comparison matrices *)

Section ComparisonMatrices.

Import DropLanguage.

Lemma gt_mat_entry (dates : list Date.t) (i j : nat) (d : Date.t) :
  (i < length dates)%nat -> (j < length dates)%nat ->
  entry (fst (compute_date_comparison_matrices dates)) i j
  = if Date.gt_fields (nth i dates d) (nth j dates d) then 1 else 0.
Proof.
  intros Hi Hj. unfold entry; simpl.
  rewrite (map_nth_in _ dates i d [] Hi).
  now rewrite (map_nth_in _ dates j d 0 Hj).
Qed.

Lemma lt_mat_entry (dates : list Date.t) (i j : nat) (d : Date.t) :
  (i < length dates)%nat -> (j < length dates)%nat ->
  entry (snd (compute_date_comparison_matrices dates)) i j
  = if Date.gt_fields (nth j dates d) (nth i dates d) then 1 else 0.
Proof.
  intros Hi Hj. unfold entry; simpl.
  rewrite (map_nth_in _ dates i d [] Hi).
  now rewrite (map_nth_in _ dates j d 0 Hj).
Qed.

Lemma mat_entry_outside (f : Date.t -> Date.t -> R) (dates : list Date.t)
    (i j : nat) :
  (length dates <= i)%nat \/ (length dates <= j)%nat ->
  entry (map (fun di => map (fun dj => f di dj) dates) dates) i j = 0.
Proof.
  intros H. unfold entry.
  destruct (Nat.lt_ge_cases i (length dates)) as [Hi | Hi].
  - destruct dates as [| d0 dates']; [simpl in Hi; lia |].
    rewrite (map_nth_in _ (d0 :: dates') i d0 [] Hi).
    apply nth_overflow. rewrite length_map. lia.
  - rewrite (nth_overflow _ []); [now destruct j |].
    rewrite length_map. lia.
Qed.

(** C10: for every list of dates the matrix [date_lt_mat] is the transpose
    of [date_gt_mat] (entry [i][j] of the one is entry [j][i] of the other),
    and the diagonals of both hold only zeros. *)
Theorem date_lt_mat_is_transpose_of_gt_mat :
  forall dates : list Date.t,
    snd (compute_date_comparison_matrices dates)
    = transpose (length dates) (fst (compute_date_comparison_matrices dates))
    /\ (forall i j,
          entry (snd (compute_date_comparison_matrices dates)) i j
          = entry (fst (compute_date_comparison_matrices dates)) j i)
    /\ (forall i,
          entry (fst (compute_date_comparison_matrices dates)) i i = 0
          /\ entry (snd (compute_date_comparison_matrices dates)) i i = 0).
Proof.
  intros dates. split; [| split].
  - simpl. unfold transpose, Date.lt_fields.
    destruct dates as [| d0 dates']; [reflexivity |].
    set (dates := d0 :: dates').
    rewrite <- (map_seq_nth
                  (fun di => map (fun dj => if Date.gt_fields dj di then 1 else 0)
                                 dates) dates d0).
    apply map_ext_in. intros j Hj. apply in_seq in Hj.
    rewrite map_map. apply map_ext. intros di.
    rewrite (map_nth_in _ dates j d0 0); [reflexivity | lia].
  - intros i j.
    destruct (Nat.lt_ge_cases i (length dates)) as [Hi | Hi];
      [destruct (Nat.lt_ge_cases j (length dates)) as [Hj | Hj] |].
    + destruct dates as [| d0 dates']; [simpl in Hi; lia |].
      now rewrite (lt_mat_entry _ i j d0 Hi Hj), (gt_mat_entry _ j i d0 Hj Hi).
    + simpl. rewrite !mat_entry_outside; auto.
    + simpl. rewrite !mat_entry_outside; auto.
  - intros i.
    destruct (Nat.lt_ge_cases i (length dates)) as [Hi | Hi].
    + destruct dates as [| d0 dates']; [simpl in Hi; lia |].
      rewrite (lt_mat_entry _ i i d0 Hi Hi), (gt_mat_entry _ i i d0 Hi Hi).
      now rewrite gt_fields_irrefl.
    + simpl. rewrite !mat_entry_outside; auto.
Qed.

End ComparisonMatrices.

(** ** Softmax and scatter-add *)

Section SoftmaxScatter.

Arguments tsum : simpl never.

Lemma tsum_cons (x : R) (u : Tensor1) : tsum (x :: u) = x + tsum u.
Proof. reflexivity. Qed.

Lemma tsum_map_exp_pos (x : Tensor1) : x <> [] -> 0 < tsum (map exp x).
Proof.
  destruct x as [| a x]; [congruence | intros _].
  simpl map. rewrite tsum_cons.
  assert (H : 0 <= tsum (map exp x)).
  { induction x as [| b x IH]; simpl; [unfold tsum; simpl; lra |].
    rewrite tsum_cons. pose proof (exp_pos b). lra. }
  pose proof (exp_pos a). lra.
Qed.

Lemma tsum_map_div (f : R -> R) (c : R) (x : Tensor1) :
  tsum (map (fun xi => f xi / c) x) = tsum (map f x) / c.
Proof.
  induction x as [| a x IH]; simpl.
  - unfold tsum; simpl. unfold Rdiv. ring.
  - rewrite !tsum_cons, IH. unfold Rdiv. ring.
Qed.

Lemma softmax_length (x : Tensor1) : length (softmax x) = length x.
Proof. unfold softmax. apply length_map. Qed.

Lemma softmax_sum (x : Tensor1) : x <> [] -> tsum (softmax x) = 1.
Proof.
  intros Hx. unfold softmax. rewrite (tsum_map_div exp).
  pose proof (tsum_map_exp_pos x Hx). field. lra.
Qed.

Lemma add_at_length (i : nat) (s : R) (self : Tensor1) :
  length (add_at i s self) = length self.
Proof.
  revert i; induction self as [| x self IH]; intros [| i]; simpl; auto.
Qed.

Lemma tsum_add_at (i : nat) (s : R) (self : Tensor1) :
  (i < length self)%nat -> tsum (add_at i s self) = tsum self + s.
Proof.
  revert i; induction self as [| x self IH]; intros [| i]; simpl; try lia.
  - intros _. rewrite !tsum_cons. lra.
  - intros H. rewrite !tsum_cons, IH by lia. lra.
Qed.

(** With every index inside [self] and one source value per index,
    [scatter_add_] returns, keeps the shape and adds the whole of [src]. *)
Lemma scatter_add_sum (index : list Z) :
  forall (self src : Tensor1),
    Forall (fun i => (0 <= i < Z.of_nat (length self))%Z) index ->
    length src = length index ->
    exists r, scatter_add_ self index src = Ok r
              /\ length r = length self
              /\ tsum r = tsum self + tsum src.
Proof.
  induction index as [| i index IH]; intros self src Hin Hlen.
  - destruct src; [| discriminate]. exists self. simpl.
    repeat split. unfold tsum at 3; simpl. lra.
  - destruct src as [| s src]; [discriminate |].
    inversion Hin as [| ? ? Hi Hrest]; subst.
    simpl.
    replace ((0 <=? i)%Z && (i <? Z.of_nat (length self))%Z)%bool with true
      by (symmetry; apply andb_true_iff; split;
          [apply Z.leb_le | apply Z.ltb_lt]; lia).
    destruct (IH (add_at (Z.to_nat i) s self) src) as (r & Hr & Hl & Hs).
    + rewrite add_at_length. exact Hrest.
    + simpl in Hlen. lia.
    + exists r. split; [exact Hr |]. split.
      * now rewrite Hl, add_at_length.
      * rewrite Hs, tsum_add_at, tsum_cons by lia. lra.
Qed.

(** When every index is [0], the whole of [src] lands in the first cell. *)
Lemma scatter_add_all_zero (n : nat) :
  forall (x : R) (rest src : Tensor1),
    length src = n ->
    scatter_add_ (x :: rest) (repeat 0%Z n) src = Ok ((x + tsum src) :: rest).
Proof.
  induction n as [| n IH]; intros x rest src Hlen.
  - destruct src; [| discriminate]. simpl.
    unfold tsum; simpl. now rewrite Rplus_0_r.
  - destruct src as [| s src]; [discriminate |].
    simpl repeat. cbn [scatter_add_ length].
    replace ((0 <=? 0)%Z && (0 <? Z.of_nat (S (length rest)))%Z)%bool with true
      by (symmetry; apply andb_true_iff; split;
          [apply Z.leb_le | apply Z.ltb_lt]; lia).
    simpl add_at. rewrite IH by (simpl in Hlen; lia).
    rewrite tsum_cons. now rewrite Rplus_assoc.
Qed.

Lemma masked_fill_length (x : Tensor1) (m : list bool) (v : R) :
  length (masked_fill x m v) = Nat.min (length x) (length m).
Proof. apply zipWith_length. Qed.

Lemma scatter_index_mask (idx : list Z) :
  zipWith Z.mul (map b2z (map (fun i => (i >? -1)%Z) idx)) idx
  = map DropLanguage.scatter_index idx.
Proof.
  induction idx as [| i idx IH]; simpl; [reflexivity |]. now rewrite IH.
Qed.

Lemma scatter_index_range (i : Z) : (0 <= DropLanguage.scatter_index i)%Z.
Proof.
  unfold DropLanguage.scatter_index.
  destruct (Z.gtb_spec i (-1)); cbn [b2z]; lia.
Qed.

Lemma scatter_index_sentinel (idx : list Z) :
  Forall (fun i => i = (-1)%Z) idx ->
  map DropLanguage.scatter_index idx = repeat 0%Z (length idx).
Proof.
  induction 1 as [| i idx Hi _ IH]; simpl; [reflexivity |].
  subst i. now rewrite IH.
Qed.

Lemma tadd_length (u v : Tensor1) :
  length (tadd u v) = Nat.min (length u) (length v).
Proof. apply zipWith_length. Qed.

Lemma sum_dim0_length (cols : nat) (M : Tensor2) :
  Forall (fun row => length row = cols) M -> length (sum_dim0 cols M) = cols.
Proof.
  unfold sum_dim0. induction 1 as [| row M Hrow _ IH]; cbn [fold_right].
  - apply repeat_length.
  - rewrite tadd_length, IH, Hrow. apply Nat.min_id.
Qed.

Lemma mul_unsqueeze1_rows (cols : nat) (M : Tensor2) (u : Tensor1) :
  Forall (fun row => length row = cols) M ->
  Forall (fun row => length row = cols) (mul_unsqueeze1 M u).
Proof.
  intros H; revert u; induction H as [| row M Hrow _ IH]; intros [| a u];
    simpl; constructor.
  - now rewrite length_map.
  - apply IH.
Qed.

End SoftmaxScatter.

(** ** The date-scoring engine *)

Section DateScores.

Import DropLanguage.

Arguments tsum : simpl never.

Lemma passage_datetoken_attention_length (self : t) (a : Tensor1) :
  well_formed self ->
  length (passage_datetoken_attention self a) = length (passage_mask self).
Proof.
  intros (_ & _ & Hrows & _).
  unfold passage_datetoken_attention.
  apply sum_dim0_length, mul_unsqueeze1_rows, Hrows.
Qed.

Lemma compute_date_scores_unfold (self : t) (a : Tensor1) :
  compute_date_scores self a
  = (d <- scatter_add_ (new_zeros (num_passage_dates self))
            (map scatter_index (passage_tokenidx2dateidx self))
            (masked_softmax_memory_efficient
               (passage_datetoken_attention self a)
               (map (fun i => (i >? -1)%Z) (passage_tokenidx2dateidx self))) ;;
     Ok (d, d)).
Proof.
  unfold compute_date_scores. now rewrite scatter_index_mask.
Qed.

Lemma date_token_probs_length (self : t) (a : Tensor1) :
  well_formed self ->
  length (masked_softmax_memory_efficient
            (passage_datetoken_attention self a)
            (map (fun i => (i >? -1)%Z) (passage_tokenidx2dateidx self)))
  = length (passage_mask self).
Proof.
  intros Hwf. pose proof (passage_datetoken_attention_length self a Hwf) as Hl.
  destruct Hwf as (Hidx & _).
  unfold masked_softmax_memory_efficient.
  rewrite softmax_length, masked_fill_length, Hl, !length_map, Hidx.
  apply Nat.min_id.
Qed.

(** The date-scoring engine on a well-formed instance: it returns a vector
    over the dates; for a passage with at least one token the vector sums
    to one, and it is the unit vector of date 0 when no token is a date; for
    the empty passage it is zero. *)
Lemma compute_date_scores_spec (self : t) (a : Tensor1) :
  well_formed self ->
  exists d,
    compute_date_scores self a = Ok (d, d)
    /\ length d = num_passage_dates self
    /\ (passage_mask self <> [] -> tsum d = 1)
    /\ (passage_mask self <> [] ->
        Forall (fun i => i = (-1)%Z) (passage_tokenidx2dateidx self) ->
        d = 1 :: repeat 0 (num_passage_dates self - 1))
    /\ (passage_mask self = [] -> d = repeat 0 (num_passage_dates self)).
Proof.
  intros Hwf.
  pose proof (date_token_probs_length self a Hwf) as Hlen.
  pose proof (passage_datetoken_attention_length self a Hwf) as Hpda.
  rewrite compute_date_scores_unfold.
  set (probs := masked_softmax_memory_efficient _ _) in *.
  destruct Hwf as (Hidx & _ & _ & Hrange).
  destruct (scatter_add_sum (map scatter_index (passage_tokenidx2dateidx self))
              (new_zeros (num_passage_dates self)) probs)
    as (d & Hd & Hdl & Hds).
  { apply Forall_map. unfold new_zeros. rewrite repeat_length.
    eapply Forall_impl; [| exact Hrange]. cbv beta. intros i Hi.
    pose proof (scatter_index_range i). lia. }
  { now rewrite length_map, Hlen, Hidx. }
  assert (Hsum : passage_mask self <> [] -> tsum probs = 1).
  { intros Hne. unfold probs, masked_softmax_memory_efficient.
    apply softmax_sum. intros Hnil.
    apply (f_equal (@length R)) in Hnil.
    rewrite masked_fill_length, Hpda, !length_map, Hidx, Nat.min_id in Hnil.
    destruct (passage_mask self); [congruence | discriminate]. }
  exists d. rewrite Hd. cbn [bind].
  split; [reflexivity |]. split; [| split; [| split]].
  - rewrite Hdl. unfold new_zeros. apply repeat_length.
  - intros Hne. rewrite Hds, (Hsum Hne). unfold new_zeros.
    rewrite tsum_repeat0. lra.
  - intros Hne Hall.
    rewrite (scatter_index_sentinel _ Hall) in Hd.
    assert (HD : (0 < num_passage_dates self)%nat).
    { destruct (passage_tokenidx2dateidx self) as [| i idx];
        [destruct (passage_mask self); [congruence | discriminate] |].
      inversion Hrange as [| ? ? Hi _]; subst.
      pose proof (scatter_index_range i). lia. }
    destruct (num_passage_dates self) as [| D]; [lia |].
    cbn [new_zeros repeat] in Hd.
    rewrite scatter_add_all_zero in Hd by (rewrite Hlen; now symmetry).
    injection Hd as <-. rewrite (Hsum Hne), Rplus_0_l.
    now replace (S D - 1)%nat with D by lia.
  - intros Hnil. rewrite Hnil in Hidx.
    destruct (passage_tokenidx2dateidx self); [| discriminate].
    cbn in Hd. now injection Hd as <-.
Qed.

(** With an empty date list and a token in the passage the scatter has no
    cell to add to, and the engine raises. *)
Lemma compute_date_scores_without_dates (self : t) (a : Tensor1) :
  num_passage_dates self = 0%nat ->
  passage_tokenidx2dateidx self <> [] ->
  exists e, compute_date_scores self a = Raise e.
Proof.
  intros HD Hidx. rewrite compute_date_scores_unfold, HD.
  destruct (passage_tokenidx2dateidx self) as [| i idx]; [congruence |].
  cbn [map]. set (probs := masked_softmax_memory_efficient _ _).
  destruct probs as [| s probs]; cbn [scatter_add_ bind];
    [eexists; reflexivity |].
  pose proof (scatter_index_range i).
  replace ((0 <=? scatter_index i)%Z
           && (scatter_index i <? Z.of_nat (length (new_zeros 0)))%Z)%bool
    with false
    by (symmetry; apply andb_false_iff; right; apply Z.ltb_ge; simpl; lia).
  eexists; reflexivity.
Qed.

End DateScores.

(** ** The concrete instances are instances of the language *)

Section ExampleInstances.

Import DropLanguage Examples.

Lemma build_is_init (embedded passage : Tensor2) (mask : list bool)
    (idx : list Z) (dates : list Date.t) :
  __init__ embedded passage mask idx dates params "encoded"
  = Ok (build passage mask idx dates).
Proof. reflexivity. Qed.

Lemma one_date_well_formed : well_formed one_date.
Proof.
  unfold well_formed; cbn. repeat split; repeat constructor.
Qed.

Lemma two_dates_well_formed : well_formed two_dates.
Proof.
  unfold well_formed; cbn. repeat split; repeat constructor.
Qed.

Lemma no_date_token_well_formed : well_formed no_date_token.
Proof.
  unfold well_formed; cbn. repeat split; repeat constructor.
Qed.

Lemma all_masked_well_formed : well_formed all_masked.
Proof.
  unfold well_formed; cbn. repeat split; repeat constructor.
Qed.

End ExampleInstances.

(** ** The distribution over the dates *)

Section DateDistribution.

Import DropLanguage Examples.

Arguments tsum : simpl never.

(** C2, as the code has it: on a well-formed instance the date-scoring
    engine returns a vector over the [D] dates.  Whenever a passage token
    maps to a date with nonzero similarity mass, and more generally whenever
    the passage has a token at all, the vector sums to one.  When no passage
    token maps to any date the vector is not zero: the masked softmax is
    then uniform over the tokens and every token scatters to date 0, so the
    vector is the unit vector of date 0.  It is zero only for the empty
    passage. *)
Theorem compute_date_scores_distribution :
  forall (self : t) (passage_attention : Tensor1),
    well_formed self ->
    length passage_attention = length (passage_mask self) ->
    exists d,
      compute_date_scores self passage_attention = Ok (d, d)
      /\ length d = num_passage_dates self
      /\ ((exists k,
              (k < length (passage_mask self))%nat
              /\ nth k (passage_tokenidx2dateidx self) (-1)%Z <> (-1)%Z
              /\ nth k (passage_datetoken_attention self passage_attention) 0
                 <> 0) ->
          tsum d = 1)
      /\ (passage_mask self <> [] -> tsum d = 1)
      /\ (passage_mask self <> [] ->
          Forall (fun i => i = (-1)%Z) (passage_tokenidx2dateidx self) ->
          d = 1 :: repeat 0 (num_passage_dates self - 1))
      /\ (passage_mask self = [] -> d = repeat 0 (num_passage_dates self)).
Proof.
  intros self a Hwf _.
  destruct (compute_date_scores_spec self a Hwf)
    as (d & Hd & Hlen & Hsum & Hnone & Hempty).
  exists d. repeat split; auto.
  intros (k & Hk & _). apply Hsum.
  destruct (passage_mask self); [simpl in Hk; lia | discriminate].
Qed.

(** One token that is a date: the distribution exists and sums to one. *)
Lemma compute_date_scores_distribution_witness :
  exists d, compute_date_scores one_date [1] = Ok (d, d) /\ tsum d = 1.
Proof.
  destruct (compute_date_scores_distribution one_date [1]
              one_date_well_formed eq_refl)
    as (d & Hd & _ & _ & Hsum & _).
  exists d. split; [exact Hd |]. apply Hsum. discriminate.
Defined.

(** One token that is not a date, one date in the list: the distribution
    is [[1]], not zero. *)
Lemma compute_date_scores_no_date_token_not_zero :
  Forall (fun i => i = (-1)%Z) (passage_tokenidx2dateidx no_date_token)
  /\ compute_date_scores no_date_token [1] = Ok ([1], [1])
  /\ ~ Forall (fun x => x = 0) [1].
Proof.
  assert (Hall : Forall (fun i => i = (-1)%Z)
                        (passage_tokenidx2dateidx no_date_token))
    by (repeat constructor).
  split; [exact Hall |]. split.
  - destruct (compute_date_scores_spec no_date_token [1]
                no_date_token_well_formed)
      as (d & Hd & _ & _ & Hnone & _).
    rewrite Hd, (Hnone ltac:(discriminate) Hall). reflexivity.
  - intros H. inversion H; subst. lra.
Qed.

End DateDistribution.

(** ** The expected truth value of a comparison *)

Section ExpectedComparison.

Import DropLanguage.

Arguments tsum : simpl never.

Lemma init_fields (embedded encoded : Tensor2) (mask : list bool)
    (idx : list Z) (dates : list Date.t) (params : ExecutorParameters)
    (passage_to_use : string) (self : t) :
  __init__ embedded encoded mask idx dates params passage_to_use = Ok self ->
  passage_mask self = mask
  /\ passage_tokenidx2dateidx self = idx
  /\ passage_date_values self = dates
  /\ num_passage_dates self = length dates
  /\ date_gt_mat self = fst (compute_date_comparison_matrices dates)
  /\ date_lt_mat self = snd (compute_date_comparison_matrices dates).
Proof.
  unfold __init__.
  destruct (passage_to_use =? "embedded")%string;
    [| destruct (passage_to_use =? "encoded")%string];
    cbn; intros H; inversion H; subst; cbn; repeat split.
Qed.

Lemma blend_tadd (p : R) (u v : Tensor1) :
  tadd (tscale p u) (tscale (1 - p) v) = blend p u v.
Proof.
  unfold tadd, tscale, blend.
  revert v; induction u as [| x u IH]; intros [| y v]; simpl; auto.
  now rewrite IH.
Qed.

Lemma big_sum_nth (u : Tensor1) (n : nat) :
  length u = n -> tsum u = big_sum n (fun i => nth i u 0).
Proof. intros <-. apply tsum_big_sum. Qed.

(** The sum of the entries of [M * outer u v] as a double sum. *)
Lemma tsum2_tmul2_outer (n : nat) (M : Tensor2) (u v : Tensor1) :
  length M = n -> Forall (fun row => length row = n) M ->
  length u = n -> length v = n ->
  tsum2 (tmul2 M (outer u v))
  = big_sum n (fun i =>
      big_sum n (fun j => entry M i j * (nth i u 0 * nth j v 0))).
Proof.
  intros HM Hrows Hu Hv.
  unfold tsum2. rewrite (tsum_map_big_sum tsum _ []).
  assert (Hlen : length (tmul2 M (outer u v)) = n).
  { unfold tmul2, outer. rewrite zipWith_length, length_map, HM, Hu.
    apply Nat.min_id. }
  rewrite Hlen. apply big_sum_ext. intros i Hi.
  unfold tmul2.
  rewrite (zipWith_nth tmul M (outer u v) i [] [] [])
    by (unfold outer; rewrite ?length_map; lia).
  unfold outer. rewrite (map_nth_in _ u i 0 []) by lia.
  assert (Hrow : length (nth i M []) = n).
  { rewrite Forall_forall in Hrows. apply Hrows, nth_In. lia. }
  rewrite (big_sum_nth _ n)
    by (unfold tmul; rewrite zipWith_length, length_map, Hrow, Hv;
        apply Nat.min_id).
  apply big_sum_ext. intros j Hj. unfold tmul.
  rewrite (zipWith_nth Rmult _ _ j 0 0 0) by (rewrite ?length_map; lia).
  rewrite (map_nth_in _ v j 0 0) by lia. reflexivity.
Qed.

Lemma comparison_matrix_shape (f : Date.t -> Date.t -> R) (dates : list Date.t) :
  let M := map (fun di => map (fun dj => f di dj) dates) dates in
  length M = length dates
  /\ Forall (fun row => length row = length dates) M.
Proof.
  cbv zeta. split; [apply length_map |].
  apply Forall_map, Forall_forall. intros di _. apply length_map.
Qed.

Lemma gt_mat_date_greater (dates : list Date.t) (i j : nat) :
  (i < length dates)%nat -> (j < length dates)%nat ->
  entry (fst (compute_date_comparison_matrices dates)) i j
  = date_greater dates i j.
Proof.
  intros Hi Hj. destruct dates as [| d0 dates']; [simpl in Hi; lia |].
  rewrite (gt_mat_entry _ i j d0 Hi Hj). unfold date_greater.
  now rewrite (nth_error_nth' _ d0 Hi), (nth_error_nth' _ d0 Hj).
Qed.

Lemma lt_mat_date_greater (dates : list Date.t) (i j : nat) :
  (i < length dates)%nat -> (j < length dates)%nat ->
  entry (snd (compute_date_comparison_matrices dates)) i j
  = date_greater dates j i.
Proof.
  intros Hi Hj. destruct dates as [| d0 dates']; [simpl in Hi; lia |].
  rewrite (lt_mat_entry _ i j d0 Hi Hj). unfold date_greater.
  now rewrite (nth_error_nth' _ d0 Hi), (nth_error_nth' _ d0 Hj).
Qed.

(** [expected_date_comparison] for "greater" and for "lesser" on an instance
    built by [__init__], with distributions over its dates. *)
Lemma expected_date_comparison_sums (self : t) (dates : list Date.t)
    (d1 d2 : Tensor1) :
  date_gt_mat self = fst (compute_date_comparison_matrices dates) ->
  date_lt_mat self = snd (compute_date_comparison_matrices dates) ->
  length d1 = length dates -> length d2 = length dates ->
  expected_date_comparison self d1 d2 "greater"
  = Ok (big_sum (length dates) (fun i =>
          big_sum (length dates) (fun j =>
            date_greater dates i j * (nth i d1 0 * nth j d2 0))))
  /\ expected_date_comparison self d1 d2 "lesser"
     = Ok (big_sum (length dates) (fun i =>
             big_sum (length dates) (fun j =>
               date_greater dates j i * (nth i d1 0 * nth j d2 0)))).
Proof.
  intros Hgt Hlt H1 H2. unfold expected_date_comparison. cbn.
  rewrite Hgt, Hlt. cbn [fst snd compute_date_comparison_matrices].
  split; f_equal.
  - destruct (comparison_matrix_shape
                (fun di dj => if Date.gt_fields di dj then 1 else 0) dates)
      as (Hl & Hr).
    rewrite (tsum2_tmul2_outer (length dates)) by assumption.
    apply big_sum_ext; intros i Hi. apply big_sum_ext; intros j Hj.
    now rewrite <- (gt_mat_date_greater dates i j Hi Hj).
  - destruct (comparison_matrix_shape
                (fun di dj => if Date.lt_fields di dj then 1 else 0) dates)
      as (Hl & Hr).
    rewrite (tsum2_tmul2_outer (length dates)) by assumption.
    apply big_sum_ext; intros i Hi. apply big_sum_ext; intros j Hj.
    now rewrite <- (lt_mat_date_greater dates i j Hi Hj).
Qed.

End ExpectedComparison.

(** ** The date comparison predicates *)

Section DateComparison.

Import DropLanguage.

Arguments tsum : simpl never.

(** The loss both predicates compute from the two date distributions. *)
Lemma comparison_results (self : t) (a1 a2 : PassageAttention.t)
    (d1 d2 : Tensor1) :
  let m1 := tmul (PassageAttention._value a1) (mask_float (passage_mask self)) in
  let m2 := tmul (PassageAttention._value a2) (mask_float (passage_mask self)) in
  let loss := entropy_term d1 + entropy_term d2
              + -1 * kl_div_mean d1 d2 + -1 * kl_div_mean d2 d1 in
  compute_date_scores self m1 = Ok (d1, d1) ->
  compute_date_scores self m2 = Ok (d2, d2) ->
  compare_date_greater_than self a1 a2
  = (p <- expected_date_comparison self d1 d2 "greater" ;;
     Ok (PassageAttention_answer.__init__ (blend p m1 m2) loss))
  /\ compare_date_lesser_than self a1 a2
     = (p <- expected_date_comparison self d1 d2 "lesser" ;;
        Ok (PassageAttention_answer.__init__ (blend (1 - p) m1 m2) loss))
  /\ greater_than_weight self a1 a2
     = expected_date_comparison self d1 d2 "greater"
  /\ lesser_than_weight self a1 a2
     = (p <- expected_date_comparison self d1 d2 "lesser" ;; Ok (1 - p)).
Proof.
  cbv zeta. intros H1 H2.
  unfold compare_date_greater_than, compare_date_lesser_than,
    greater_than_weight, lesser_than_weight.
  rewrite H1, H2. cbn [bind].
  repeat split;
    destruct (expected_date_comparison self d1 d2 _); cbn [bind];
    try reflexivity; now rewrite blend_tadd.
Qed.

(** What the two predicates return on an instance built by [__init__]. *)
Lemma comparison_spec (embedded encoded : Tensor2) (mask : list bool)
    (idx : list Z) (dates : list Date.t) (params : ExecutorParameters)
    (passage_to_use : string) (self : t) (a1 a2 : PassageAttention.t) :
  __init__ embedded encoded mask idx dates params passage_to_use = Ok self ->
  well_formed self ->
  exists d1 d2 p q,
    compute_date_scores self (tmul (PassageAttention._value a1) (mask_float mask))
    = Ok (d1, d1)
    /\ compute_date_scores self
         (tmul (PassageAttention._value a2) (mask_float mask))
       = Ok (d2, d2)
    /\ p = big_sum (length dates) (fun i =>
             big_sum (length dates) (fun j =>
               date_greater dates i j * (nth i d1 0 * nth j d2 0)))
    /\ q = big_sum (length dates) (fun i =>
             big_sum (length dates) (fun j =>
               date_greater dates j i * (nth i d1 0 * nth j d2 0)))
    /\ compare_date_greater_than self a1 a2
       = Ok (PassageAttention_answer.__init__
               (blend p (tmul (PassageAttention._value a1) (mask_float mask))
                        (tmul (PassageAttention._value a2) (mask_float mask)))
               (entropy_term d1 + entropy_term d2
                + -1 * kl_div_mean d1 d2 + -1 * kl_div_mean d2 d1))
    /\ compare_date_lesser_than self a1 a2
       = Ok (PassageAttention_answer.__init__
               (blend (1 - q)
                      (tmul (PassageAttention._value a1) (mask_float mask))
                      (tmul (PassageAttention._value a2) (mask_float mask)))
               (entropy_term d1 + entropy_term d2
                + -1 * kl_div_mean d1 d2 + -1 * kl_div_mean d2 d1))
    /\ greater_than_weight self a1 a2 = Ok p
    /\ lesser_than_weight self a1 a2 = Ok (1 - q).
Proof.
  intros Hinit Hwf.
  destruct (init_fields _ _ _ _ _ _ _ _ Hinit)
    as (Hmask & _ & _ & HD & Hgt & Hlt).
  destruct (compute_date_scores_spec self
              (tmul (PassageAttention._value a1) (mask_float mask)) Hwf)
    as (d1 & Hd1 & Hl1 & _).
  destruct (compute_date_scores_spec self
              (tmul (PassageAttention._value a2) (mask_float mask)) Hwf)
    as (d2 & Hd2 & Hl2 & _).
  rewrite HD in Hl1, Hl2.
  destruct (expected_date_comparison_sums self dates d1 d2 Hgt Hlt Hl1 Hl2)
    as (Eg & El).
  rewrite <- Hmask in Hd1, Hd2.
  destruct (comparison_results self a1 a2 d1 d2 Hd1 Hd2)
    as (Cg & Cl & Wg & Wl).
  rewrite Hmask in *.
  do 4 eexists.
  split; [exact Hd1 |]. split; [exact Hd2 |].
  split; [reflexivity |]. split; [reflexivity |].
  rewrite Cg, Cl, Wg, Wl, Eg, El. cbn [bind]. repeat split.
Qed.

(** C4: on an instance built by [__init__], [compare_date_greater_than]
    masks both attentions by the passage mask, computes the date
    distributions [d1] and [d2] of the masked attentions, and returns the
    attention [p * attn1 + (1 - p) * attn2] of the masked attentions, where
    [p] is the sum over [i], [j] of [gt[i][j] * d1[i] * d2[j]]: the
    expectation of the boolean "greater" under the product of [d1] and
    [d2]. *)
Theorem compare_date_greater_than_blend :
  forall (embedded encoded : Tensor2) (mask : list bool) (idx : list Z)
         (dates : list Date.t) (params : ExecutorParameters)
         (passage_to_use : string) (self : t) (a1 a2 : PassageAttention.t),
    __init__ embedded encoded mask idx dates params passage_to_use = Ok self ->
    well_formed self ->
    length (PassageAttention._value a1) = length mask ->
    length (PassageAttention._value a2) = length mask ->
    exists d1 d2 p answer,
      compute_date_scores self
        (tmul (PassageAttention._value a1) (mask_float mask)) = Ok (d1, d1)
      /\ compute_date_scores self
           (tmul (PassageAttention._value a2) (mask_float mask)) = Ok (d2, d2)
      /\ p = big_sum (length dates) (fun i =>
               big_sum (length dates) (fun j =>
                 date_greater dates i j * (nth i d1 0 * nth j d2 0)))
      /\ compare_date_greater_than self a1 a2 = Ok answer
      /\ PassageAttention_answer._value answer
         = blend p (tmul (PassageAttention._value a1) (mask_float mask))
                   (tmul (PassageAttention._value a2) (mask_float mask)).
Proof.
  intros embedded encoded mask idx dates params passage_to_use self a1 a2
         Hinit Hwf _ _.
  destruct (comparison_spec _ _ _ _ _ _ _ self a1 a2 Hinit Hwf)
    as (d1 & d2 & p & q & Hd1 & Hd2 & Hp & _ & Hg & _).
  exists d1, d2, p. eexists.
  split; [exact Hd1 |]. split; [exact Hd2 |]. split; [exact Hp |].
  split; [exact Hg | reflexivity].
Qed.

(** The two-date passage, attention-1 on the first token and attention-2
    on the second. *)
Lemma compare_date_greater_than_blend_witness :
  exists d1 d2 p answer,
    compute_date_scores Examples.two_dates
      (tmul [1; 0] (mask_float [true; true])) = Ok (d1, d1)
    /\ compute_date_scores Examples.two_dates
         (tmul [0; 1] (mask_float [true; true])) = Ok (d2, d2)
    /\ p = big_sum 2 (fun i =>
             big_sum 2 (fun j =>
               date_greater [Examples.d2001; Examples.d2002] i j
               * (nth i d1 0 * nth j d2 0)))
    /\ compare_date_greater_than Examples.two_dates Examples.on_first_token
                                 Examples.on_second_token = Ok answer
    /\ PassageAttention_answer._value answer
       = blend p (tmul [1; 0] (mask_float [true; true]))
                 (tmul [0; 1] (mask_float [true; true])).
Proof.
  exact (compare_date_greater_than_blend
           [] [[1; 0]; [0; 1]] [true; true] [0%Z; 1%Z]
           [Examples.d2001; Examples.d2002] Examples.params "encoded"
           Examples.two_dates Examples.on_first_token Examples.on_second_token
           (build_is_init _ _ _ _ _) two_dates_well_formed eq_refl eq_refl).
Defined.

End DateComparison.

(** ** The two comparison predicates on two dates *)

Section TwoDates.

Import DropLanguage Examples.

Lemma tanh_0 : tanh 0 = 0.
Proof. unfold tanh. rewrite sinh_0, cosh_0. lra. Qed.

Lemma tanh_pos (x : R) : 0 < x -> 0 < tanh x.
Proof.
  intros Hx. unfold tanh. apply Rdiv_lt_0_compat.
  - rewrite <- sinh_0. now apply sinh_lt.
  - unfold cosh. pose proof (exp_pos x). pose proof (exp_pos (- x)). lra.
Qed.

Lemma exp_tanh_half_gt_1 : 1 < exp (tanh (1 / 2)).
Proof.
  assert (Hpos : 0 < tanh (1 / 2)) by (apply tanh_pos; lra).
  pose proof (exp_increasing 0 (tanh (1 / 2)) Hpos) as H.
  now rewrite exp_0 in H.
Qed.

(** Each token of [two_dates] is evidence for its own date only. *)
Lemma two_dates_similarity :
  passage_passage_token2date_similarity two_dates
  = [[tanh (1 / 2); 0]; [0; tanh (1 / 2)]].
Proof.
  cbn -[tanh INR]. unfold tsum. cbn -[tanh INR].
  replace ((1 * 1 + (0 * 0 + 0)) * 1 * 1 / INR 2) with (1 / 2)
    by (simpl; lra).
  replace ((0 * 0 + (1 * 1 + 0)) * 1 * 1 / INR 2) with (1 / 2)
    by (simpl; lra).
  replace ((1 * 0 + (0 * 1 + 0)) * 1 * 1 / INR 2) with 0 by (simpl; lra).
  replace ((0 * 1 + (1 * 0 + 0)) * 1 * 1 / INR 2) with 0 by (simpl; lra).
  now rewrite tanh_0.
Qed.

(** The date distribution of [two_dates] is the softmax of the attention
    scaled by [tanh (1/2)]. *)
Lemma two_dates_scores (x y : R) :
  compute_date_scores two_dates [x; y]
  = Ok ([exp (tanh (1 / 2) * x)
           / (exp (tanh (1 / 2) * x) + exp (tanh (1 / 2) * y));
         exp (tanh (1 / 2) * y)
           / (exp (tanh (1 / 2) * x) + exp (tanh (1 / 2) * y))],
        [exp (tanh (1 / 2) * x)
           / (exp (tanh (1 / 2) * x) + exp (tanh (1 / 2) * y));
         exp (tanh (1 / 2) * y)
           / (exp (tanh (1 / 2) * x) + exp (tanh (1 / 2) * y))]).
Proof.
  unfold compute_date_scores, passage_datetoken_attention.
  rewrite two_dates_similarity.
  cbn -[tanh exp]. unfold tsum. cbn -[tanh exp].
  change (Pos.to_nat 1) with 1%nat. cbn [add_at].
  replace (tanh (1 / 2) * x + (0 * y + 0)) with (tanh (1 / 2) * x) by lra.
  replace (0 * x + (tanh (1 / 2) * y + 0)) with (tanh (1 / 2) * y) by lra.
  rewrite !Rplus_0_r, !Rplus_0_l. reflexivity.
Qed.

(** The weights the two predicates put on attention-1 when attention-1 sits
    on the token of 2001 and attention-2 on the token of 2002: with
    [A = exp (tanh (1/2))], "greater" weighs it [1 / (A+1)^2] and "lesser"
    weighs it [1 - A^2 / (A+1)^2]. *)
Lemma two_dates_weights :
  greater_than_weight two_dates on_first_token on_second_token
  = Ok (1 / ((exp (tanh (1 / 2)) + 1) * (exp (tanh (1 / 2)) + 1)))
  /\ lesser_than_weight two_dates on_first_token on_second_token
     = Ok (1 - exp (tanh (1 / 2)) * exp (tanh (1 / 2))
               / ((exp (tanh (1 / 2)) + 1) * (exp (tanh (1 / 2)) + 1))).
Proof.
  pose proof exp_tanh_half_gt_1 as HA.
  unfold greater_than_weight, lesser_than_weight.
  cbn [PassageAttention._value on_first_token on_second_token passage_mask
       two_dates build mask_float map b2r tmul zipWith].
  rewrite !two_dates_scores. cbn [bind].
  unfold expected_date_comparison.
  cbn -[exp tanh]. unfold tsum2, tsum. cbn -[exp tanh].
  replace (tanh (1 / 2) * (1 * 1)) with (tanh (1 / 2)) by lra.
  replace (tanh (1 / 2) * (0 * 1)) with 0 by lra.
  rewrite exp_0.
  split; f_equal; field; lra.
Qed.

End TwoDates.

(** ** The weight of "lesser" against the weight of "greater" *)

Section Complement.

Import DropLanguage Examples.

Arguments tsum : simpl never.

Lemma big_sum_0 (f : nat -> R) : big_sum 0 f = 0.
Proof. reflexivity. Qed.

Lemma big_sum_S (n : nat) (f : nat -> R) :
  big_sum (S n) f = big_sum n f + f n.
Proof.
  unfold big_sum. rewrite seq_S, map_app, tsum_app. cbn [map Nat.add].
  unfold tsum at 2. simpl. lra.
Qed.

Lemma big_sum_plus (n : nat) (f g : nat -> R) :
  big_sum n (fun i => f i + g i) = big_sum n f + big_sum n g.
Proof.
  induction n as [| n IH]; [rewrite !big_sum_0; lra |].
  rewrite !big_sum_S, IH. lra.
Qed.

Lemma big_sum_zero (n : nat) : big_sum n (fun _ => 0) = 0.
Proof.
  induction n as [| n IH]; [reflexivity |]. rewrite big_sum_S, IH. lra.
Qed.

Lemma big_sum_swap (n m : nat) (f : nat -> nat -> R) :
  big_sum n (fun i => big_sum m (fun j => f i j))
  = big_sum m (fun j => big_sum n (fun i => f i j)).
Proof.
  induction n as [| n IH].
  - rewrite big_sum_0. symmetry.
    rewrite (big_sum_ext m _ (fun _ => 0)); [apply big_sum_zero |].
    intros j _. apply big_sum_0.
  - rewrite big_sum_S, IH, <- big_sum_plus.
    apply big_sum_ext. intros j _. now rewrite big_sum_S.
Qed.

(** What the code computes: the weight that "lesser" puts on attention-1 is
    one minus the weight that "greater" puts on attention-1 once the two
    attentions are exchanged. *)
Lemma lesser_weight_exchanged (embedded encoded : Tensor2) (mask : list bool)
    (idx : list Z) (dates : list Date.t) (params : ExecutorParameters)
    (passage_to_use : string) (self : t) (a1 a2 : PassageAttention.t) :
  __init__ embedded encoded mask idx dates params passage_to_use = Ok self ->
  well_formed self ->
  exists w,
    greater_than_weight self a2 a1 = Ok w
    /\ lesser_than_weight self a1 a2 = Ok (1 - w).
Proof.
  intros Hinit Hwf.
  destruct (comparison_spec _ _ _ _ _ _ _ self a1 a2 Hinit Hwf)
    as (d1 & d2 & p & q & Hd1 & Hd2 & _ & Hq & _ & _ & _ & Hl).
  destruct (comparison_spec _ _ _ _ _ _ _ self a2 a1 Hinit Hwf)
    as (e2 & e1 & p' & q' & He2 & He1 & Hp' & _ & _ & _ & Hg & _).
  rewrite Hd2 in He2. rewrite Hd1 in He1.
  injection He2 as <-. injection He1 as <-.
  exists p'. split; [exact Hg |].
  rewrite Hl. do 2 f_equal. rewrite Hq, Hp', big_sum_swap.
  apply big_sum_ext; intros i _. apply big_sum_ext; intros j _. ring.
Qed.

(** C1 on the two-date passage, attention-1 on the token of 2001 and
    attention-2 on the token of 2002: "greater" weighs attention-1 by
    [1 / (A+1)^2] and "lesser" by [1 - A^2 / (A+1)^2], where
    [A = exp (tanh (1/2)) > 1]; the weight of "lesser" is strictly below
    one minus the weight of "greater", so the two are not complementary. *)
Theorem lesser_weight_is_not_complement_of_greater :
  exists wg wl,
    greater_than_weight two_dates on_first_token on_second_token = Ok wg
    /\ lesser_than_weight two_dates on_first_token on_second_token = Ok wl
    /\ wl < 1 - wg
    /\ wl <> 1 - wg.
Proof.
  destruct two_dates_weights as (Hg & Hl).
  do 2 eexists. split; [exact Hg |]. split; [exact Hl |].
  pose proof exp_tanh_half_gt_1 as HA.
  set (A := exp (tanh (1 / 2))) in *.
  assert (Hlt : 1 - A * A / ((A + 1) * (A + 1)) < 1 - 1 / ((A + 1) * (A + 1))).
  { apply Rplus_lt_compat_l, Ropp_lt_contravar.
    unfold Rdiv. apply Rmult_lt_compat_r.
    - apply Rinv_0_lt_compat. nra.
    - nra. }
  split; [exact Hlt | lra].
Qed.

End Complement.

(** ** The loss of the comparison predicates *)

Section ComparisonLoss.

Import DropLanguage Examples.

Arguments tsum : simpl never.

(** The entropy term of the code is the Shannon entropy with the floor
    inside the logarithm. *)
Lemma entropy_term_shannon (d : Tensor1) : entropy_term d = shannon_entropy d.
Proof.
  unfold entropy_term, shannon_entropy.
  rewrite (big_sum_nth (tmul d (map (fun x => ln (x + 1e-40)) d)) (length d))
    by (unfold tmul; rewrite zipWith_length, length_map; apply Nat.min_id).
  rewrite (big_sum_ext (length d) _
             (fun i => nth i d 0 * ln (nth i d 0 + 1e-40))); [lra |].
  intros i Hi. unfold tmul.
  rewrite (zipWith_nth Rmult _ _ i 0 0 0) by (rewrite ?length_map; lia).
  now rewrite (map_nth_in _ d i 0 0) by lia.
Qed.

(** With a single date every attention gives the distribution [[1]]. *)
Lemma one_date_scores (a : Tensor1) :
  compute_date_scores one_date a = Ok ([1], [1]).
Proof.
  destruct (compute_date_scores_spec one_date a one_date_well_formed)
    as (d & Hd & Hlen & Hsum & _).
  destruct d as [| x [| y d]]; try discriminate.
  specialize (Hsum ltac:(discriminate)).
  unfold tsum in Hsum; simpl in Hsum.
  replace x with 1 in Hd by lra. exact Hd.
Qed.

Lemma kl_div_mean_one : kl_div_mean [1] [1] = -1.
Proof.
  unfold kl_div_mean, kl_div_pointwise, tsum. simpl.
  destruct (Rlt_dec 0 1) as [_ | H]; [| lra].
  rewrite ln_1. lra.
Qed.

Lemma KL_one : KL [1] [1] = 0.
Proof.
  unfold KL, big_sum, tsum. simpl.
  destruct (Rlt_dec 0 1) as [_ | H]; [| lra].
  replace (1 / 1) with 1 by lra. rewrite ln_1. lra.
Qed.

(** C3 on the one-date passage: both date distributions are [[1]], their
    Kullback-Leibler divergence is zero in both directions, and the loss
    that both predicates return is the two entropies minus the two
    divergences plus 2.  [F.kl_div] is given the distributions where it
    expects log-probabilities, so each of its terms is
    [1 * (log 1 - 1) = -1]. *)
Theorem comparison_loss_is_not_entropy_minus_KL :
  exists d answer_greater answer_lesser,
    compute_date_scores one_date
      (tmul (PassageAttention._value on_only_token)
            (mask_float (passage_mask one_date))) = Ok (d, d)
    /\ compare_date_greater_than one_date on_only_token on_only_token
       = Ok answer_greater
    /\ compare_date_lesser_than one_date on_only_token on_only_token
       = Ok answer_lesser
    /\ PassageAttention_answer.loss answer_greater
       = shannon_entropy d + shannon_entropy d + - KL d d + - KL d d + 2
    /\ PassageAttention_answer.loss answer_lesser
       = shannon_entropy d + shannon_entropy d + - KL d d + - KL d d + 2.
Proof.
  pose proof (one_date_scores
                (tmul (PassageAttention._value on_only_token)
                      (mask_float (passage_mask one_date)))) as Hd.
  destruct (comparison_results one_date on_only_token on_only_token
              [1] [1] Hd Hd) as (Hg & Hl & _).
  exists [1]. do 2 eexists.
  split; [exact Hd |].
  split; [rewrite Hg; reflexivity |].
  split; [rewrite Hl; reflexivity |].
  cbn [PassageAttention_answer.loss].
  rewrite entropy_term_shannon, kl_div_mean_one, KL_one. split; lra.
Qed.

End ComparisonLoss.

(** ** Span decoding *)

Section SpanDecoding.

Import DropLanguage Examples.

Lemma replace_masked_values_length (x : Tensor1) (mask : list bool) (v : R) :
  length (replace_masked_values x mask v) = Nat.min (length x) (length mask).
Proof.
  unfold replace_masked_values. now rewrite masked_fill_length, length_map.
Qed.

Lemma replace_masked_values_nth (x : Tensor1) (mask : list bool) (v : R)
    (i : nat) (b : bool) :
  (i < length x)%nat -> (i < length mask)%nat ->
  nth i (replace_masked_values x mask v) 0
  = if nth i mask b then nth i x 0 else v.
Proof.
  intros Hx Hm. unfold replace_masked_values, masked_fill.
  rewrite (zipWith_nth _ x (map negb mask) i 0 (negb b) 0)
    by (rewrite ?length_map; lia).
  rewrite (map_nth_in negb mask i b (negb b)) by lia.
  now destruct (nth i mask b).
Qed.

Lemma replace_masked_values_all_masked (mask : list bool) (v : R) :
  Forall (fun b => b = false) mask ->
  forall x : Tensor1,
    length x = length mask ->
    replace_masked_values x mask v = repeat v (length mask).
Proof.
  unfold replace_masked_values, masked_fill.
  induction 1 as [| b mask Hb _ IH]; intros [| a x] Hlen;
    try discriminate; [reflexivity |].
  subst b. simpl. f_equal. apply IH. simpl in Hlen. lia.
Qed.

Lemma masked_log_softmax_length (x : Tensor1) (mask : list bool) :
  length (masked_log_softmax x mask) = Nat.min (length x) (length mask).
Proof.
  unfold masked_log_softmax, log_softmax, mask_float.
  now rewrite length_map, tadd_length, !length_map.
Qed.

(** The mass [exp (-1e32)] of the sentinel lies below [1e-32]. *)
Lemma sentinel_mass_small : exp (-1e32) < 1e-32.
Proof.
  assert (H : 1 + 1e32 < exp 1e32) by (apply exp_ineq1; lra).
  replace (-1e32) with (Ropp 1e32) by lra.
  rewrite exp_Ropp.
  apply Rlt_le_trans with (/ 1e32).
  - apply Rinv_lt_contravar; [| lra].
    apply Rmult_lt_0_compat; lra.
  - lra.
Qed.

(** The exponential of a negative integer lies below the power of two. *)
Lemma pow2_lt_exp (n : nat) : 2 ^ S n < exp (INR (S n)).
Proof.
  assert (H2 : 2 < exp 1) by (pose proof (exp_ineq1 1); lra).
  induction n as [| n IH].
  - simpl. lra.
  - rewrite S_INR, exp_plus.
    change (2 ^ S (S n)) with (2 * 2 ^ S n).
    assert (0 < 2 ^ S n) by (apply pow_lt; lra).
    nra.
Qed.

Lemma exp_below_power_of_two (z : Z) (x : R) :
  (z < 0)%Z -> x <= IZR z -> 0 < exp x < powerRZ 2 z.
Proof.
  intros Hz Hx. split; [apply exp_pos |].
  destruct z as [| p | p]; try lia.
  apply Rle_lt_trans with (exp (IZR (Z.neg p))).
  - destruct Hx as [Hx | ->];
      [left; now apply exp_increasing | right; reflexivity].
  - cbn [powerRZ].
    change (Z.neg p) with (- Z.pos p)%Z.
    rewrite opp_IZR, <- positive_nat_Z, <- INR_IZR_INZ, exp_Ropp.
    destruct (Pos2Nat.is_succ p) as [n ->].
    pose proof (pow2_lt_exp n).
    assert (0 < 2 ^ S n) by (apply pow_lt; lra).
    apply Rinv_lt_contravar; [| assumption].
    apply Rmult_lt_0_compat; lra.
Qed.

Lemma powerRZ_2_monotone (a b : Z) :
  (a <= b)%Z -> powerRZ 2 a <= powerRZ 2 b.
Proof.
  intros H. rewrite !powerRZ_Rpower by lra.
  apply Rle_Rpower; [lra | now apply IZR_le].
Qed.

Lemma binary_float_zero (prec emin emax : Z) :
  (0 <= prec)%Z -> (emin <= emax)%Z -> binary_float prec emin emax 0.
Proof.
  intros Hp He. exists 0%Z, emin.
  split; [simpl; apply Z.pow_pos_nonneg; lia |].
  split; [lia | lra].
Qed.

(** No number of a format other than zero is smaller than [2^emin]. *)
Lemma binary_float_smallest (prec emin emax : Z) (g : R) :
  binary_float prec emin emax g -> g <> 0 -> powerRZ 2 emin <= Rabs g.
Proof.
  intros (m & e & _ & He & ->) Hg.
  assert (Hm : m <> 0%Z) by (intros ->; apply Hg; lra).
  rewrite Rabs_mult, Rabs_Zabs.
  assert (H1 : 1 <= IZR (Z.abs m)) by (apply IZR_le; lia).
  pose proof (powerRZ_lt 2 e ltac:(lra)) as Hpos.
  rewrite (Rabs_pos_eq (powerRZ 2 e)) by lra.
  pose proof (powerRZ_2_monotone emin e (proj1 He)).
  pose proof (powerRZ_lt 2 emin ltac:(lra)).
  nra.
Qed.

Lemma half_of_smallest (emin : Z) :
  powerRZ 2 (emin - 1) = powerRZ 2 emin / 2.
Proof.
  unfold Z.sub. rewrite powerRZ_add by lra. simpl. lra.
Qed.

(** Underflow: the exponential of a number at or below [emin - 1] lies
    below half of the smallest positive number of the format, so that zero
    is the one nearest number. *)
Lemma float_exp_underflow (prec emin emax : Z) (x : R) :
  (0 <= prec)%Z -> (emin <= emax)%Z -> (emin <= 0)%Z ->
  x <= IZR (emin - 1) ->
  forall p, float_exp (binary_float prec emin emax) x p <-> p = 0.
Proof.
  intros Hp He H0 Hx p.
  destruct (exp_below_power_of_two (emin - 1) x ltac:(lia) Hx)
    as (Hpos & Hlt).
  rewrite half_of_smallest in Hlt.
  assert (Hfar : forall g, binary_float prec emin emax g -> g <> 0 ->
                           exp x < Rabs (g - exp x)).
  { intros g Hg Hne.
    pose proof (binary_float_smallest _ _ _ g Hg Hne) as Hs.
    unfold Rabs in *.
    destruct (Rcase_abs g); destruct (Rcase_abs (g - exp x)); lra. }
  assert (Hzero : Rabs (0 - exp x) = exp x)
    by (unfold Rabs; destruct (Rcase_abs (0 - exp x)); lra).
  unfold float_exp, round_to_nearest. split.
  - intros (Hf & Hnear).
    destruct (Req_dec p 0) as [| Hne]; [assumption | exfalso].
    pose proof (Hnear 0 (binary_float_zero _ _ _ Hp He)).
    pose proof (Hfar p Hf Hne). lra.
  - intros ->. split; [now apply binary_float_zero |].
    intros g Hg. rewrite Hzero.
    destruct (Req_dec g 0) as [-> | Hne]; [rewrite Hzero; lra |].
    pose proof (Hfar g Hg Hne). lra.
Qed.

(** The sentinel, and every number at or below [-1075], has no probability
    mass. *)
Lemma underflow_no_probability_mass (x : R) :
  x <= -1075 -> no_probability_mass x.
Proof.
  intros Hx. split; apply float_exp_underflow; try lia; simpl; lra.
Qed.

Lemma sentinel_no_probability_mass : no_probability_mass (-1e32).
Proof. apply underflow_no_probability_mass. lra. Qed.

(** The logits and log-probabilities that [find_passageSpanAnswer]
    returns, position by position. *)
Lemma find_passageSpanAnswer_spec (self : t) (pa : PassageAttention_answer.t) :
  length (passage_span_logits self pa) = length (passage_mask self) ->
  let answer := find_passageSpanAnswer self pa in
  let mask := passage_mask self in
  let start_logits := PassageSpanAnswer.start_logits answer in
  let end_logits := PassageSpanAnswer.end_logits answer in
  let start_log_probs := fst (PassageSpanAnswer._value answer) in
  let end_log_probs := snd (PassageSpanAnswer._value answer) in
  (length start_logits = length mask /\ length end_logits = length mask
   /\ length start_log_probs = length mask
   /\ length end_log_probs = length mask)
  /\ (forall i,
        (i < length mask)%nat -> nth i mask true = false ->
        nth i start_logits 0 = -1e32 /\ nth i end_logits 0 = -1e32
        /\ nth i start_log_probs 0 = -1e32 /\ nth i end_log_probs 0 = -1e32)
  /\ (forall i,
        (i < length mask)%nat -> nth i mask false = true ->
        nth i start_logits 0 = fst (nth i (passage_span_logits self pa) (0, 0))
        /\ nth i end_logits 0 = snd (nth i (passage_span_logits self pa) (0, 0))
        /\ nth i start_log_probs 0
           = nth i (masked_log_softmax start_logits mask) 0
        /\ nth i end_log_probs 0
           = nth i (masked_log_softmax end_logits mask) 0)
  /\ (Forall (fun b => b = false) mask ->
      start_logits = repeat (-1e32) (length mask)
      /\ end_logits = repeat (-1e32) (length mask)
      /\ start_log_probs = repeat (-1e32) (length mask)
      /\ end_log_probs = repeat (-1e32) (length mask)).
Proof.
  intros Hshape. cbv zeta.
  unfold find_passageSpanAnswer.
  cbn [PassageSpanAnswer.__init__ PassageSpanAnswer.start_logits
       PassageSpanAnswer.end_logits PassageSpanAnswer._value fst snd].
  set (logits := passage_span_logits self pa) in *.
  set (mask := passage_mask self) in *.
  set (sl := replace_masked_values (map fst logits) mask (-1e32)).
  set (el := replace_masked_values (map snd logits) mask (-1e32)).
  assert (Hsl : length sl = length mask)
    by (unfold sl; rewrite replace_masked_values_length, length_map, Hshape;
        apply Nat.min_id).
  assert (Hel : length el = length mask)
    by (unfold el; rewrite replace_masked_values_length, length_map, Hshape;
        apply Nat.min_id).
  assert (Hsp : length (masked_log_softmax sl mask) = length mask)
    by (rewrite masked_log_softmax_length, Hsl; apply Nat.min_id).
  assert (Hep : length (masked_log_softmax el mask) = length mask)
    by (rewrite masked_log_softmax_length, Hel; apply Nat.min_id).
  assert (Hfst : length (map fst logits) = length mask)
    by now rewrite length_map.
  assert (Hsnd : length (map snd logits) = length mask)
    by now rewrite length_map.
  assert (Hnth : forall (x : Tensor1) (b : bool) (i : nat),
             length x = length mask -> (i < length mask)%nat ->
             nth i (replace_masked_values x mask (-1e32)) 0
             = if nth i mask b then nth i x 0 else -1e32)
    by (intros x b i Hx Hi; apply replace_masked_values_nth; lia).
  split; [| split; [| split]].
  - repeat split; auto;
      rewrite replace_masked_values_length, ?Hsp, ?Hep; apply Nat.min_id.
  - intros i Hi Hm. unfold sl at 1, el at 1.
    rewrite !(Hnth _ true i) by assumption.
    rewrite Hm. repeat split.
  - intros i Hi Hm. unfold sl at 1, el at 1.
    rewrite !(Hnth _ false i) by assumption.
    rewrite Hm.
    rewrite (map_nth_in fst logits i (0, 0) 0) by lia.
    rewrite (map_nth_in snd logits i (0, 0) 0) by lia.
    repeat split.
  - intros Hall.
    pose proof (replace_masked_values_all_masked mask (-1e32) Hall) as Hrep.
    unfold sl at 1, el at 1.
    rewrite !Hrep by assumption.
    repeat split.
Qed.

(** C8: [find_passageSpanAnswer] replaces the start and end logits at
    masked positions by [-1e32] before the masked log-softmax, which runs on
    the replaced logits, and replaces the start and end log-probabilities at
    masked positions by [-1e32] after it; valid positions keep the logit of
    the predictor and the log-probability of the log-softmax.  For an
    all-masked passage every returned logit and log-probability is
    [-1e32].  No masked position receives positive probability mass: it
    carries the log-probability [-1e32], whose exponential lies below
    [1e-32] as a real number and rounds to exactly zero in binary32 and in
    binary64, the mass that the floating-point arithmetic of the program
    gives it. *)
Theorem find_passageSpanAnswer_masks_before_and_after :
  forall (self : t) (pa : PassageAttention_answer.t),
    length (passage_span_logits self pa) = length (passage_mask self) ->
    let answer := find_passageSpanAnswer self pa in
    let mask := passage_mask self in
    let start_logits := PassageSpanAnswer.start_logits answer in
    let end_logits := PassageSpanAnswer.end_logits answer in
    let start_log_probs := fst (PassageSpanAnswer._value answer) in
    let end_log_probs := snd (PassageSpanAnswer._value answer) in
    start_logits
    = replace_masked_values (map fst (passage_span_logits self pa)) mask (-1e32)
    /\ end_logits
       = replace_masked_values (map snd (passage_span_logits self pa)) mask
                               (-1e32)
    /\ start_log_probs
       = replace_masked_values (masked_log_softmax start_logits mask) mask
                               (-1e32)
    /\ end_log_probs
       = replace_masked_values (masked_log_softmax end_logits mask) mask
                               (-1e32)
    /\ (forall i,
          (i < length mask)%nat -> nth i mask true = false ->
          nth i start_logits 0 = -1e32 /\ nth i end_logits 0 = -1e32
          /\ nth i start_log_probs 0 = -1e32 /\ nth i end_log_probs 0 = -1e32
          /\ exp (nth i start_log_probs 0) < 1e-32
          /\ exp (nth i end_log_probs 0) < 1e-32
          /\ no_probability_mass (nth i start_log_probs 0)
          /\ no_probability_mass (nth i end_log_probs 0))
    /\ (forall i,
          (i < length mask)%nat -> nth i mask false = true ->
          nth i start_logits 0
          = fst (nth i (passage_span_logits self pa) (0, 0))
          /\ nth i end_logits 0
             = snd (nth i (passage_span_logits self pa) (0, 0))
          /\ nth i start_log_probs 0
             = nth i (masked_log_softmax start_logits mask) 0
          /\ nth i end_log_probs 0
             = nth i (masked_log_softmax end_logits mask) 0)
    /\ (Forall (fun b => b = false) mask ->
        start_logits = repeat (-1e32) (length mask)
        /\ end_logits = repeat (-1e32) (length mask)
        /\ start_log_probs = repeat (-1e32) (length mask)
        /\ end_log_probs = repeat (-1e32) (length mask)
        /\ Forall no_probability_mass start_log_probs
        /\ Forall no_probability_mass end_log_probs).
Proof.
  intros self pa Hshape.
  destruct (find_passageSpanAnswer_spec self pa Hshape)
    as (_ & Hmasked & Hvalid & Hall).
  cbv zeta in *.
  split; [reflexivity |]. split; [reflexivity |].
  split; [reflexivity |]. split; [reflexivity |].
  split; [| split; [exact Hvalid |]].
  - intros i Hi Hm.
    destruct (Hmasked i Hi Hm) as (H1 & H2 & H3 & H4).
    rewrite H3, H4.
    pose proof sentinel_mass_small. pose proof sentinel_no_probability_mass.
    tauto.
  - intros Hmask. destruct (Hall Hmask) as (H1 & H2 & H3 & H4).
    rewrite H3, H4.
    assert (Forall no_probability_mass
              (repeat (-1e32) (length (passage_mask self)))).
    { apply Forall_forall. intros x Hx. apply repeat_spec in Hx. subst x.
      apply sentinel_no_probability_mass. }
    tauto.
Qed.

(** Two tokens, both masked: every returned value is the sentinel, and no
    position has probability mass. *)
Lemma find_passageSpanAnswer_masks_before_and_after_witness :
  PassageSpanAnswer._value (find_passageSpanAnswer all_masked answer_on_two_tokens)
  = ([-1e32; -1e32], [-1e32; -1e32])
  /\ Forall no_probability_mass
       (fst (PassageSpanAnswer._value
               (find_passageSpanAnswer all_masked answer_on_two_tokens)))
  /\ Forall no_probability_mass
       (snd (PassageSpanAnswer._value
               (find_passageSpanAnswer all_masked answer_on_two_tokens))).
Proof.
  destruct (find_passageSpanAnswer_masks_before_and_after
              all_masked answer_on_two_tokens eq_refl)
    as (_ & _ & _ & _ & _ & _ & Hall).
  destruct (Hall ltac:(repeat constructor)) as (_ & _ & Hs & He & Ms & Me).
  split; [| split; assumption].
  rewrite (surjective_pairing (PassageSpanAnswer._value _)).
  now rewrite Hs, He.
Defined.

End SpanDecoding.

(** * Further properties *)

(** ** The order on dates *)

Section DateOrder.

Import Date.
Open Scope Z_scope.

Ltac order_cases :=
  repeat match goal with
  | H : context [?x =? ?y] |- _ => destruct (Z.eqb_spec x y); simpl in H
  | H : context [?x >? ?y] |- _ => destruct (Z.gtb_spec x y); simpl in H
  | |- context [?x =? ?y] => destruct (Z.eqb_spec x y); simpl
  | |- context [?x >? ?y] => destruct (Z.gtb_spec x y); simpl
  end; try reflexivity; try discriminate; try lia.

Lemma gt_fields_trans (a b c : Date.t) :
  gt_fields a b = true -> gt_fields b c = true -> gt_fields a c = true.
Proof.
  destruct a as [ya ma da], b as [yb mb db], c as [yc mc dc].
  unfold gt_fields; simpl. intros H1 H2. order_cases.
Qed.

Lemma eq_fields_refl (a : Date.t) : eq_fields a a = true.
Proof.
  unfold eq_fields. rewrite !Z.eqb_refl, !orb_true_r. reflexivity.
Qed.

Lemma eq_fields_sym (a b : Date.t) : eq_fields a b = eq_fields b a.
Proof.
  unfold eq_fields.
  rewrite (Z.eqb_sym (year a) (year b)), (Z.eqb_sym (month a) (month b)),
    (Z.eqb_sym (day a) (day b)).
  destruct (year a =? -1), (year b =? -1), (month a =? -1), (month b =? -1),
    (day a =? -1), (day b =? -1); reflexivity.
Qed.

Lemma eq_fields_specified (a b : Date.t) :
  fully_specified a -> fully_specified b ->
  (eq_fields a b = true <-> a = b).
Proof.
  destruct a as [ya ma da], b as [yb mb db].
  unfold fully_specified, eq_fields; simpl. intros (?&?&?) (?&?&?).
  split.
  - intros Heq. order_cases. now subst.
  - intros [= -> -> ->]. rewrite !Z.eqb_refl, !orb_true_r. reflexivity.
Qed.

Lemma gt_fields_specified_total (a b : Date.t) :
  fully_specified a -> fully_specified b ->
  gt_fields a b = true \/ a = b \/ gt_fields b a = true.
Proof.
  destruct a as [ya ma da], b as [yb mb db].
  unfold fully_specified, gt_fields; simpl. intros (?&?&?) (?&?&?).
  destruct (Z.lt_trichotomy ya yb) as [Hy | [Hy | Hy]];
    destruct (Z.lt_trichotomy ma mb) as [Hm | [Hm | Hm]];
    destruct (Z.lt_trichotomy da db) as [Hd | [Hd | Hd]];
    subst;
    first [ right; left; reflexivity
          | left; order_cases; fail
          | right; right; order_cases ].
Qed.

Lemma ge_value (a b : Date.t) :
  __ge__ a (PyDate b) = Ok (gt_fields a b || eq_fields a b).
Proof.
  unfold __ge__; simpl. now destruct (gt_fields a b).
Qed.

(** X1: [>] is a strict partial order on all dates, with or without unknown
    fields: no date is greater than itself, and [a > b] with [b > c] gives
    [a > c]. *)
Theorem Date_gt_strict_order :
  forall a b c : Date.t,
    __gt__ a (PyDate a) = Ok false
    /\ (__gt__ a (PyDate b) = Ok true -> __gt__ b (PyDate c) = Ok true ->
        __gt__ a (PyDate c) = Ok true).
Proof.
  intros a b c. split.
  - simpl. now rewrite gt_fields_irrefl.
  - simpl. intros [= H1] [= H2]. now rewrite (gt_fields_trans a b c).
Qed.

(** 2002/1/1 > 2001/1/1 > 2001/-1/-1, hence 2002/1/1 > 2001/-1/-1. *)
Lemma Date_gt_strict_order_witness :
  __gt__ (__init__ 2002 1 1) (PyDate (__init__ 2001 (-1) (-1))) = Ok true.
Proof.
  exact (proj2 (Date_gt_strict_order (__init__ 2002 1 1) (__init__ 2001 1 1)
                  (__init__ 2001 (-1) (-1)))
               eq_refl eq_refl).
Defined.

(** X2: [==] is reflexive and symmetric on all dates: a date equals itself
    whatever fields are unknown, and [a == b] and [b == a] return the same
    boolean. *)
Theorem Date_eq_reflexive_symmetric :
  forall a b : Date.t,
    __eq__ a (PyDate a) = Ok true
    /\ __eq__ a (PyDate b) = __eq__ b (PyDate a).
Proof.
  intros a b. simpl. rewrite eq_fields_refl, (eq_fields_sym a b). now split.
Qed.

(** X3: on two dates without unknown fields [==] is equality of the three
    fields, and exactly one of [a > b], [a == b], [b > a] holds. *)
Theorem Date_specified_trichotomy :
  forall a b : Date.t,
    fully_specified a -> fully_specified b ->
    (__eq__ a (PyDate b) = Ok true <-> a = b)
    /\ (__gt__ a (PyDate b) = Ok true \/ a = b \/ __gt__ b (PyDate a) = Ok true)
    /\ (__gt__ a (PyDate b) = Ok true -> a <> b)
    /\ (__gt__ a (PyDate b) = Ok true -> __gt__ b (PyDate a) = Ok false).
Proof.
  intros a b Ha Hb. simpl.
  split; [| split; [| split]].
  - split.
    + intros [= H]. now apply eq_fields_specified.
    + intros H. f_equal. now apply eq_fields_specified.
  - destruct (gt_fields_specified_total a b Ha Hb) as [H | [H | H]].
    + left. now rewrite H.
    + right; left; exact H.
    + right; right. now rewrite H.
  - intros [= H] ->. rewrite gt_fields_irrefl in H. discriminate.
  - intros [= H]. f_equal.
    generalize (gt_fields_asym a b). rewrite H. simpl. auto.
Qed.

(** 2001/1/1 and 2002/1/1 are fully specified and differ, so one is greater. *)
Lemma Date_specified_trichotomy_witness :
  __gt__ (__init__ 2001 1 1) (PyDate (__init__ 2002 1 1)) = Ok true
  \/ __init__ 2001 1 1 = __init__ 2002 1 1
  \/ __gt__ (__init__ 2002 1 1) (PyDate (__init__ 2001 1 1)) = Ok true.
Proof.
  refine (proj1 (proj2 (Date_specified_trichotomy
                          (__init__ 2001 1 1) (__init__ 2002 1 1) _ _)));
    unfold fully_specified; simpl; repeat split; lia.
Defined.

(** X4: [>=] on two dates returns [a > b or a == b]; it is reflexive on all
    dates, and on dates without unknown fields it is total and
    antisymmetric. *)
Theorem Date_ge_order :
  forall a b : Date.t,
    __ge__ a (PyDate b) = Ok (gt_fields a b || eq_fields a b)
    /\ __ge__ a (PyDate a) = Ok true
    /\ (fully_specified a -> fully_specified b ->
        (__ge__ a (PyDate b) = Ok true \/ __ge__ b (PyDate a) = Ok true)
        /\ (__ge__ a (PyDate b) = Ok true -> __ge__ b (PyDate a) = Ok true ->
            a = b)).
Proof.
  intros a b. rewrite !ge_value.
  split; [reflexivity |]. split.
  - now rewrite eq_fields_refl, orb_true_r.
  - intros Ha Hb. split.
    + destruct (gt_fields_specified_total a b Ha Hb) as [H | [H | H]].
      * left. now rewrite H.
      * left. subst. now rewrite eq_fields_refl, orb_true_r.
      * right. now rewrite H.
    + intros [= H1] [= H2].
      apply orb_true_iff in H1, H2.
      destruct H1 as [H1 | H1]; [| now apply eq_fields_specified].
      destruct H2 as [H2 | H2];
        [| symmetry; now apply eq_fields_specified].
      generalize (gt_fields_asym a b). rewrite H1, H2. discriminate.
Qed.

(** 2001/1/1 and 2002/1/1: one of the two is [>=] the other. *)
Lemma Date_ge_order_witness :
  __ge__ (__init__ 2001 1 1) (PyDate (__init__ 2002 1 1)) = Ok true
  \/ __ge__ (__init__ 2002 1 1) (PyDate (__init__ 2001 1 1)) = Ok true.
Proof.
  refine (proj1 (proj2 (proj2 (Date_ge_order
                                 (__init__ 2001 1 1) (__init__ 2002 1 1)))
                       _ _));
    unfold fully_specified; simpl; repeat split; lia.
Defined.

End DateOrder.

(** ** Printing a date *)

Section DatePrinting.

Import DateStr.
Open Scope string_scope.

Lemma str_injective (a b : Z) : str a = str b -> a = b.
Proof.
  unfold str. intros H.
  apply (f_equal NilEmpty.int_of_string) in H.
  rewrite !NilEmpty.isi in H. injection H as H.
  apply (f_equal Z.of_int) in H. now rewrite !DecimalZ.of_to in H.
Qed.

Lemma string_of_uint_no_slash (d : Decimal.uint) :
  occurs "/" (NilEmpty.string_of_uint d) = false.
Proof.
  induction d; simpl; auto.
Qed.

Lemma str_no_slash (n : Z) : occurs "/" (str n) = false.
Proof.
  unfold str. destruct (Z.to_int n); simpl; apply string_of_uint_no_slash.
Qed.

(** A string is cut in one way only at the first occurrence of a character. *)
Lemma cut_unique (c : ascii) (s1 : string) :
  forall s2 r1 r2 : string,
    occurs c s1 = false -> occurs c s2 = false ->
    s1 ++ String c r1 = s2 ++ String c r2 ->
    s1 = s2 /\ r1 = r2.
Proof.
  induction s1 as [| a s1 IH]; intros [| b s2] r1 r2 H1 H2 Heq; simpl in *.
  - injection Heq as <-. now split.
  - injection Heq as <- _. rewrite Ascii.eqb_refl in H2. discriminate.
  - injection Heq as -> _. rewrite Ascii.eqb_refl in H1. discriminate.
  - injection Heq as <- Heq.
    apply orb_false_iff in H1, H2.
    destruct (IH s2 r1 r2 (proj2 H1) (proj2 H2) Heq) as (-> & ->).
    now split.
Qed.

(** X5: [str] of a date prints year, month and day in decimal, separated
    by [/], and two dates print the same string only when they are the same
    date. *)
Theorem Date_str_injective :
  forall a b : Date.t,
    (__str__ a = __str__ b <-> a = b)
    /\ __str__ (Date.__init__ 2018 (-1) 3) = "2018/-1/3".
Proof.
  intros a b. split; [| reflexivity].
  split; [| now intros ->].
  destruct a as [ya ma da], b as [yb mb db]. unfold __str__; simpl.
  intros H.
  apply cut_unique in H; try apply str_no_slash.
  destruct H as (Hy & H).
  apply cut_unique in H; try apply str_no_slash.
  destruct H as (Hm & Hd).
  apply str_injective in Hy, Hm, Hd. now subst.
Qed.

End DatePrinting.

(** ** The comparison matrices and the similarity matrix *)

Section Matrices.

Import DropLanguage.

Arguments tsum : simpl never.

Lemma date_greater_outside (dates : list Date.t) (i j : nat) :
  (length dates <= i)%nat \/ (length dates <= j)%nat ->
  date_greater dates i j = 0.
Proof.
  intros [H | H]; unfold date_greater.
  - now rewrite (proj2 (nth_error_None dates i) H).
  - rewrite (proj2 (nth_error_None dates j) H).
    now destruct (nth_error dates i).
Qed.

Lemma date_greater_boolean (dates : list Date.t) (i j : nat) :
  (date_greater dates i j = 0 \/ date_greater dates i j = 1)
  /\ date_greater dates i j * date_greater dates j i = 0.
Proof.
  unfold date_greater.
  destruct (nth_error dates i) as [a |], (nth_error dates j) as [b |];
    try (split; [left; reflexivity | lra]).
  pose proof (gt_fields_asym a b) as Hasym.
  destruct (Date.gt_fields a b), (Date.gt_fields b a);
    try discriminate; split; auto; lra.
Qed.

Lemma gt_mat_is_date_greater (dates : list Date.t) (i j : nat) :
  entry (fst (compute_date_comparison_matrices dates)) i j
  = date_greater dates i j.
Proof.
  destruct (Nat.lt_ge_cases i (length dates)) as [Hi | Hi];
    [destruct (Nat.lt_ge_cases j (length dates)) as [Hj | Hj] |].
  - now apply gt_mat_date_greater.
  - simpl. rewrite mat_entry_outside, date_greater_outside; auto.
  - simpl. rewrite mat_entry_outside, date_greater_outside; auto.
Qed.

Lemma lt_mat_is_date_greater (dates : list Date.t) (i j : nat) :
  entry (snd (compute_date_comparison_matrices dates)) i j
  = date_greater dates j i.
Proof.
  destruct (Nat.lt_ge_cases i (length dates)) as [Hi | Hi];
    [destruct (Nat.lt_ge_cases j (length dates)) as [Hj | Hj] |].
  - now apply lt_mat_date_greater.
  - simpl. rewrite mat_entry_outside, date_greater_outside; auto.
  - simpl. rewrite mat_entry_outside, date_greater_outside; auto.
Qed.

(** X6: both comparison matrices are square of the size of the date list;
    entry [i][j] of [date_gt_mat] is 1 when date [i] is greater than date
    [j] and 0 otherwise, entry [i][j] of [date_lt_mat] is 1 when date [j] is
    greater than date [i] and 0 otherwise, and at no position do both
    matrices hold a 1. *)
Theorem comparison_matrices_boolean :
  forall (dates : list Date.t) (i j : nat),
    (length (fst (compute_date_comparison_matrices dates)) = length dates
     /\ Forall (fun row => length row = length dates)
               (fst (compute_date_comparison_matrices dates))
     /\ length (snd (compute_date_comparison_matrices dates)) = length dates
     /\ Forall (fun row => length row = length dates)
               (snd (compute_date_comparison_matrices dates)))
    /\ entry (fst (compute_date_comparison_matrices dates)) i j
       = date_greater dates i j
    /\ entry (snd (compute_date_comparison_matrices dates)) i j
       = date_greater dates j i
    /\ (date_greater dates i j = 0 \/ date_greater dates i j = 1)
    /\ entry (fst (compute_date_comparison_matrices dates)) i j
       * entry (snd (compute_date_comparison_matrices dates)) i j = 0.
Proof.
  intros dates i j.
  destruct (comparison_matrix_shape
              (fun di dj => if Date.gt_fields di dj then 1 else 0) dates)
    as (Hg1 & Hg2).
  destruct (comparison_matrix_shape
              (fun di dj => if Date.lt_fields di dj then 1 else 0) dates)
    as (Hl1 & Hl2).
  split; [repeat split; assumption |].
  rewrite gt_mat_is_date_greater, lt_mat_is_date_greater.
  destruct (date_greater_boolean dates i j) as (H01 & Hex).
  repeat split; assumption.
Qed.

Lemma tanh_bounds (x : R) : -1 < tanh x < 1.
Proof.
  unfold tanh, sinh, cosh.
  pose proof (exp_pos x) as Ha. pose proof (exp_pos (- x)) as Hb.
  set (a := exp x) in *. set (b := exp (- x)) in *.
  replace ((a - b) / 2 / ((a + b) / 2)) with ((a - b) / (a + b))
    by (field; lra).
  split.
  - apply Rmult_lt_reg_r with (a + b); [lra |].
    unfold Rdiv. rewrite Rmult_assoc, Rinv_l by lra. lra.
  - apply Rmult_lt_reg_r with (a + b); [lra |].
    unfold Rdiv. rewrite Rmult_assoc, Rinv_l by lra. lra.
Qed.

Lemma nth_map_zero (h : R -> R) (l : Tensor1) (j : nat) :
  h 0 = 0 -> nth j (map h l) 0 = h (nth j l 0).
Proof.
  intros H0. revert j; induction l as [| x l IH]; intros [| j]; simpl; auto.
Qed.

Lemma entry_map_map (h : R -> R) (M : Tensor2) (i j : nat) :
  h 0 = 0 -> entry (map (map h) M) i j = h (entry M i j).
Proof.
  intros H0. unfold entry.
  change (@nil R) with (map h []) at 1. rewrite map_nth.
  now apply nth_map_zero.
Qed.

Lemma entry_mul_unsqueeze1 (M : Tensor2) (u : Tensor1) (i j : nat) :
  nth i u 0 = 0 \/ entry M i j = 0 -> entry (mul_unsqueeze1 M u) i j = 0.
Proof.
  unfold entry, mul_unsqueeze1.
  revert u i; induction M as [| row M IH]; intros [| a u] [| i] H;
    simpl in *; try (now destruct j).
  - rewrite (nth_map_zero (fun x => x * a)) by lra.
    destruct H as [-> | ->]; lra.
  - now apply IH.
Qed.

Lemma entry_mul_unsqueeze0 (M : Tensor2) (u : Tensor1) (i j : nat) :
  nth j u 0 = 0 -> entry (mul_unsqueeze0 M u) i j = 0.
Proof.
  intros Hu. unfold entry, mul_unsqueeze0.
  change (@nil R) with ((fun row => tmul row u) []) at 1. rewrite map_nth.
  generalize (nth i M []). intros row. unfold tmul.
  revert u j Hu; induction row as [| x row IH]; intros [| y u] [| j] Hu;
    simpl in *; try reflexivity.
  - subst. lra.
  - now apply IH.
Qed.

Lemma mask_float_masked (mask : list bool) (i : nat) :
  nth i mask true = false -> nth i (mask_float mask) 0 = 0.
Proof.
  revert i; induction mask as [| b mask IH]; intros [| i] H; simpl in *;
    try discriminate.
  - now subst.
  - now apply IH.
Qed.

(** X7: every entry of the token-to-date similarity matrix lies strictly
    between -1 and 1, and the entry of a pair of tokens is 0 as soon as one
    of the two tokens is outside the passage mask. *)
Theorem token2date_similarity_bounded_and_masked :
  forall (parameters : ExecutorParameters) (passage : Tensor2)
         (passage_mask : list bool),
    Forall (Forall (fun x => -1 < x < 1))
           (compute_passage_token2date_similarity parameters passage
                                                  passage_mask)
    /\ (forall i j,
          nth i passage_mask true = false \/ nth j passage_mask true = false ->
          entry (compute_passage_token2date_similarity parameters passage
                                                       passage_mask) i j = 0).
Proof.
  intros parameters passage passage_mask.
  unfold compute_passage_token2date_similarity. split.
  - apply Forall_map, Forall_forall. intros row _.
    apply Forall_map, Forall_forall. intros x _. apply tanh_bounds.
  - intros i j H.
    rewrite (entry_map_map tanh) by apply tanh_0.
    rewrite (entry_map_map (fun x => x / INR (length passage_mask)))
      by (unfold Rdiv; apply Rmult_0_l).
    rewrite entry_mul_unsqueeze1; [unfold Rdiv; rewrite Rmult_0_l; apply tanh_0 |].
    destruct H as [H | H].
    + left. now apply mask_float_masked.
    + right. now apply entry_mul_unsqueeze0, mask_float_masked.
Qed.

(** In [second_masked] the second token is masked: its similarity to the
    first token is 0. *)
Lemma token2date_similarity_bounded_and_masked_witness :
  entry (passage_passage_token2date_similarity MoreExamples.second_masked) 1 0
  = 0.
Proof.
  exact (proj2 (token2date_similarity_bounded_and_masked
                  Examples.params [[1; 0]; [0; 1]] [true; false])
               1%nat 0%nat (or_introl eq_refl)).
Defined.

End Matrices.

(** ** The question side *)

Section QuestionSide.

Import Question.

Arguments tsum : simpl never.

Lemma softmax_nonneg (x : Tensor1) : Forall (fun p => 0 <= p) (softmax x).
Proof.
  destruct x as [| a x]; [constructor |].
  pose proof (tsum_map_exp_pos (a :: x) ltac:(discriminate)) as HS.
  unfold softmax. apply Forall_map, Forall_forall. intros xi _.
  apply Rlt_le, Rdiv_lt_0_compat; [apply exp_pos | exact HS].
Qed.

Lemma masked_softmax_row (row : Tensor1) (mask : list bool) :
  mask <> [] -> length row = length mask ->
  length (masked_softmax_memory_efficient row mask) = length mask
  /\ tsum (masked_softmax_memory_efficient row mask) = 1
  /\ Forall (fun p => 0 <= p) (masked_softmax_memory_efficient row mask).
Proof.
  intros Hne Hlen. unfold masked_softmax_memory_efficient.
  assert (Hl : length (masked_fill row (map negb mask) mask_fill_value)
               = length mask)
    by (rewrite masked_fill_length, length_map, Hlen; apply Nat.min_id).
  split; [now rewrite softmax_length |]. split; [| apply softmax_nonneg].
  apply softmax_sum. intros Hnil. rewrite Hnil in Hl.
  destruct mask; [congruence | discriminate].
Qed.

Lemma tsum_tadd (u v : Tensor1) :
  length u = length v -> tsum (tadd u v) = tsum u + tsum v.
Proof.
  unfold tadd.
  revert v; induction u as [| x u IH]; intros [| y v] H; try discriminate.
  - unfold tsum; simpl; lra.
  - simpl. rewrite !tsum_cons, IH by (simpl in H; lia). lra.
Qed.

Lemma tsum_sum_dim0 (cols : nat) (M : Tensor2) :
  Forall (fun row => length row = cols) M ->
  tsum (sum_dim0 cols M) = tsum (map tsum M).
Proof.
  intros H. induction H as [| row M Hrow HM IH].
  - unfold sum_dim0; simpl. now rewrite tsum_repeat0.
  - change (sum_dim0 cols (row :: M)) with (tadd row (sum_dim0 cols M)).
    rewrite tsum_tadd by (now rewrite sum_dim0_length, Hrow).
    simpl map. now rewrite tsum_cons, IH.
Qed.

Lemma tsum_map_scale (a : R) (row : Tensor1) :
  tsum (map (fun x => x * a) row) = tsum row * a.
Proof.
  induction row as [| x row IH]; simpl.
  - unfold tsum; simpl; lra.
  - rewrite !tsum_cons, IH. lra.
Qed.

Lemma tsum_rows_weighted (M : Tensor2) :
  Forall (fun row => tsum row = 1) M ->
  forall u : Tensor1,
    length M = length u -> tsum (map tsum (mul_unsqueeze1 M u)) = tsum u.
Proof.
  unfold mul_unsqueeze1.
  induction 1 as [| row M Hrow _ IH]; intros [| a u] Hlen; try discriminate.
  - reflexivity.
  - simpl. rewrite !tsum_cons, tsum_map_scale, Hrow, IH
      by (simpl in Hlen; lia). lra.
Qed.

Lemma question_rows (parameters : Parameters) (rq rp : Tensor2)
    (mask : list bool) :
  mask <> [] ->
  Forall (fun row => length row = length mask)
         (_dropout (executor parameters) (dotprod_matrix_attn parameters rq rp)) ->
  Forall (fun row => length row = length mask /\ tsum row = 1
                     /\ Forall (fun p => 0 <= p) row)
         (compute_question_passage_similarity parameters rq rp mask).
Proof.
  intros Hne Hrows. unfold compute_question_passage_similarity.
  apply Forall_map. eapply Forall_impl; [| exact Hrows].
  cbv beta. intros row Hrow. now apply masked_softmax_row.
Qed.

(** X8: when the scorer gives every question token one score per passage
    token and the passage is not empty, every row of the question-to-passage
    attention is a vector over the passage without negative entries that
    sums to one. *)
Theorem question_passage_attention_rows_are_distributions :
  forall (parameters : Parameters) (rawemb_question rawemb_passage : Tensor2)
         (passage_mask : list bool),
    passage_mask <> [] ->
    Forall (fun row => length row = length passage_mask)
           (_dropout (executor parameters)
              (dotprod_matrix_attn parameters rawemb_question rawemb_passage)) ->
    Forall (fun row => length row = length passage_mask /\ distribution row)
           (compute_question_passage_similarity parameters rawemb_question
              rawemb_passage passage_mask).
Proof.
  intros parameters rq rp mask Hne Hrows.
  eapply Forall_impl; [| exact (question_rows parameters rq rp mask Hne Hrows)].
  cbv beta. intros row (Hl & Hs & Hp). unfold distribution. auto.
Qed.

(** The question of [with_question] against the two-token passage. *)
Lemma question_passage_attention_rows_are_distributions_witness :
  Forall (fun row => length row = 2%nat /\ distribution row)
         (question_passage_attention MoreExamples.with_question).
Proof.
  apply (question_passage_attention_rows_are_distributions
           MoreExamples.parameters [[1; 0]; [0; 1]] [[1; 0]; [0; 1]]
           [true; true]).
  - discriminate.
  - repeat constructor.
Defined.

Lemma question_init_fields (rawemb_question : Tensor2)
    (embedded_question : option Tensor2) (encoded_question : Tensor2)
    (rawemb_passage embedded_passage encoded_passage : Tensor2)
    (question_mask passage_mask : list bool) (idx : list Z)
    (dates : list Date.t) (parameters : Parameters)
    (question_to_use passage_to_use : string) (self : t) :
  __init__ rawemb_question embedded_question encoded_question rawemb_passage
    embedded_passage encoded_passage question_mask passage_mask idx dates
    parameters question_to_use passage_to_use = Ok (Some self) ->
  DropLanguage.__init__ embedded_passage encoded_passage passage_mask idx
    dates (executor parameters) passage_to_use = Ok (passage_side self)
  /\ Question.question_mask self = question_mask
  /\ question_passage_attention self
     = compute_question_passage_similarity parameters rawemb_question
         rawemb_passage passage_mask.
Proof.
  unfold __init__. destruct embedded_question as [eq |]; [| discriminate].
  destruct (DropLanguage.__init__ _ _ _ _ _ _ _) as [ps | e];
    cbn [bind]; [| discriminate].
  intros [= <-]. cbn. repeat split.
Qed.

(** The mass of the passage attention, from the shapes and the row sums. *)
Lemma find_PassageAttention_sum (self : t) (question_attention : Tensor1) :
  well_formed self ->
  Forall (fun row => tsum row = 1) (question_passage_attention self) ->
  length question_attention = length (Question.question_mask self) ->
  length (PassageAttention._value
            (find_PassageAttention self question_attention))
  = length (DropLanguage.passage_mask (passage_side self))
  /\ tsum (PassageAttention._value
             (find_PassageAttention self question_attention))
     = tsum (tmul question_attention
                  (mask_float (Question.question_mask self))).
Proof.
  intros (Hlen & Hrows) Hsum Hqa.
  unfold find_PassageAttention. cbn [PassageAttention._value].
  set (u := tmul question_attention (mask_float (Question.question_mask self))).
  assert (Hu : length (question_passage_attention self) = length u).
  { unfold u, tmul, mask_float.
    rewrite zipWith_length, length_map, Hqa, Nat.min_id. exact Hlen. }
  pose proof (mul_unsqueeze1_rows _ _ u Hrows) as Hrows'.
  split.
  - now apply sum_dim0_length.
  - rewrite tsum_sum_dim0 by exact Hrows'.
    now apply tsum_rows_weighted.
Qed.

(** X9: on a language built by [__init__] with a non-empty passage and a
    scorer that gives every question token one score per passage token,
    [find_PassageAttention] returns a vector over the passage whose total
    mass is the mass the question attention puts on the tokens inside the
    question mask: the attention on masked question tokens is dropped and
    the rest is carried over to the passage in full. *)
Theorem find_PassageAttention_preserves_mass :
  forall (rawemb_question : Tensor2) (embedded_question : option Tensor2)
         (encoded_question rawemb_passage embedded_passage encoded_passage
          : Tensor2)
         (question_mask passage_mask : list bool) (idx : list Z)
         (dates : list Date.t) (parameters : Parameters)
         (question_to_use passage_to_use : string) (self : t)
         (question_attention : Tensor1),
    __init__ rawemb_question embedded_question encoded_question
      rawemb_passage embedded_passage encoded_passage question_mask
      passage_mask idx dates parameters question_to_use passage_to_use
    = Ok (Some self) ->
    passage_mask <> [] ->
    length (_dropout (executor parameters)
              (dotprod_matrix_attn parameters rawemb_question rawemb_passage))
    = length question_mask ->
    Forall (fun row => length row = length passage_mask)
           (_dropout (executor parameters)
              (dotprod_matrix_attn parameters rawemb_question rawemb_passage)) ->
    length question_attention = length question_mask ->
    length (PassageAttention._value
              (find_PassageAttention self question_attention))
    = length passage_mask
    /\ tsum (PassageAttention._value
               (find_PassageAttention self question_attention))
       = tsum (tmul question_attention (mask_float question_mask)).
Proof.
  intros rq eq nq rp ep np qmask pmask idx dates parameters qtu ptu self qa
         Hinit Hne Hlen Hrows Hqa.
  destruct (question_init_fields _ _ _ _ _ _ _ _ _ _ _ _ _ _ Hinit)
    as (Hps & Hqm & Hqpa).
  destruct (init_fields _ _ _ _ _ _ _ _ Hps) as (Hpm & _).
  pose proof (question_rows parameters rq rp pmask Hne Hrows) as Hdist.
  rewrite <- Hqpa in Hdist.
  assert (Hwf : well_formed self).
  { split.
    - rewrite Hqpa, Hqm. unfold compute_question_passage_similarity.
      now rewrite length_map.
    - rewrite Hpm. eapply Forall_impl; [| exact Hdist]. cbv beta. tauto. }
  assert (Hone : Forall (fun row => tsum row = 1)
                        (question_passage_attention self))
    by (eapply Forall_impl; [| exact Hdist]; cbv beta; tauto).
  rewrite <- Hqm in Hqa.
  destruct (find_PassageAttention_sum self qa Hwf Hone Hqa) as (H1 & H2).
  rewrite Hpm in H1. rewrite Hqm in H2. now split.
Qed.

(** A question attention [[0.7; 0.3]] whose second token is padding puts
    the mass [0.7] on the passage. *)
Lemma find_PassageAttention_preserves_mass_witness :
  tsum (PassageAttention._value
          (find_PassageAttention MoreExamples.with_question [0.7; 0.3]))
  = tsum (tmul [0.7; 0.3] (mask_float [true; false])).
Proof.
  refine (proj2 (find_PassageAttention_preserves_mass
                   [[1; 0]; [0; 1]] (Some [[1; 0]; [0; 1]]) [[1; 0]; [0; 1]]
                   [[1; 0]; [0; 1]] [] [[1; 0]; [0; 1]] [true; false]
                   [true; true] [0%Z; 1%Z] [Examples.d2001; Examples.d2002]
                   MoreExamples.parameters "encoded" "encoded"
                   MoreExamples.with_question [0.7; 0.3]
                   eq_refl _ eq_refl _ eq_refl)).
  - discriminate.
  - repeat constructor.
Defined.

End QuestionSide.

(** ** More on the date-scoring engine *)

Section DateScoresMore.

Import DropLanguage.

Arguments tsum : simpl never.

Lemma add_at_nonneg (i : nat) (s : R) (self : Tensor1) :
  0 <= s -> Forall (fun x => 0 <= x) self ->
  Forall (fun x => 0 <= x) (add_at i s self).
Proof.
  intros Hs H; revert i; induction H as [| x self Hx Hself IH]; intros [| i];
    simpl; constructor; auto; lra.
Qed.

Lemma scatter_add_nonneg (index : list Z) :
  forall (self src r : Tensor1),
    Forall (fun x => 0 <= x) self -> Forall (fun x => 0 <= x) src ->
    scatter_add_ self index src = Ok r -> Forall (fun x => 0 <= x) r.
Proof.
  induction index as [| i index IH]; intros self src r Hself Hsrc Hr.
  - simpl in Hr. now injection Hr as <-.
  - destruct src as [| s src]; [discriminate |].
    inversion Hsrc as [| ? ? Hs Hsrc']; subst. simpl in Hr.
    destruct ((0 <=? i)%Z && (i <? Z.of_nat (length self))%Z)%bool;
      [| discriminate].
    eapply IH; [| exact Hsrc' | exact Hr]. now apply add_at_nonneg.
Qed.

Lemma nonneg_le_sum (l : Tensor1) :
  Forall (fun x => 0 <= x) l -> 0 <= tsum l /\ Forall (fun x => x <= tsum l) l.
Proof.
  induction 1 as [| x l Hx _ (IH0 & IH)].
  - split; [unfold tsum; simpl; lra | constructor].
  - rewrite tsum_cons. split; [lra |]. constructor; [lra |].
    eapply Forall_impl; [| exact IH]. cbv beta. intros y Hy. lra.
Qed.

Lemma add_at_nth (i j : nat) (s : R) (self : Tensor1) :
  (i < length self)%nat ->
  nth j (add_at i s self) 0
  = nth j self 0 + (if Nat.eqb i j then s else 0).
Proof.
  revert i j; induction self as [| x self IH]; intros [| i] [| j] Hi;
    simpl in *; try lia; try lra.
  apply IH. lia.
Qed.

(** Cell [j] of a scatter-add receives the source values of the positions
    whose index is [j]. *)
Lemma scatter_add_nth (j : nat) (index : list Z) :
  forall (self src r : Tensor1),
    length src = length index ->
    scatter_add_ self index src = Ok r ->
    nth j r 0
    = nth j self 0
      + tsum (zipWith (fun i s => if (i =? Z.of_nat j)%Z then s else 0)
                      index src).
Proof.
  induction index as [| i index IH]; intros self src r Hlen Hr.
  - simpl in Hr. injection Hr as <-. destruct src; simpl; unfold tsum; simpl; lra.
  - destruct src as [| s src]; [discriminate |]. simpl in Hr.
    destruct ((0 <=? i)%Z && (i <? Z.of_nat (length self))%Z)%bool eqn:Hin;
      [| discriminate].
    apply andb_true_iff in Hin. destruct Hin as (H0 & H1).
    apply Z.leb_le in H0. apply Z.ltb_lt in H1.
    assert (Hlen' : length src = length index) by (simpl in Hlen; lia).
    rewrite (IH _ _ _ Hlen' Hr).
    rewrite add_at_nth by lia. cbn [zipWith]. rewrite tsum_cons.
    destruct (Z.eqb_spec i (Z.of_nat j)) as [-> | Hne].
    + rewrite Nat2Z.id, Nat.eqb_refl. lra.
    + destruct (Nat.eqb_spec (Z.to_nat i) j) as [<- | _]; [| lra].
      rewrite Z2Nat.id in Hne by lia. congruence.
Qed.

Lemma tsum_zipWith_big_sum {A B : Type} (f : A -> B -> R) (u : list A)
    (v : list B) (da : A) (db : B) :
  length v = length u ->
  tsum (zipWith f u v)
  = big_sum (length u) (fun k => f (nth k u da) (nth k v db)).
Proof.
  intros Hlen.
  rewrite (big_sum_nth (zipWith f u v) (length u))
    by (rewrite zipWith_length, Hlen; apply Nat.min_id).
  apply big_sum_ext. intros k Hk.
  now rewrite (zipWith_nth f u v k da db 0) by lia.
Qed.

(** The probabilities that the engine scatters into the date buckets. *)
Lemma date_token_probs_nonneg (self : t) (a : Tensor1) :
  Forall (fun p => 0 <= p)
    (masked_softmax_memory_efficient
       (passage_datetoken_attention self a)
       (map (fun i => (i >? -1)%Z) (passage_tokenidx2dateidx self))).
Proof. apply softmax_nonneg. Qed.

(** X10: on a well-formed instance with at least one passage token the
    date-scoring engine returns a probability distribution over the dates:
    no entry is negative, every entry is at most one, and the entries sum to
    one. *)
Theorem compute_date_scores_is_distribution :
  forall (self : t) (passage_attention : Tensor1),
    well_formed self ->
    length passage_attention = length (passage_mask self) ->
    passage_mask self <> [] ->
    exists d,
      compute_date_scores self passage_attention = Ok (d, d)
      /\ distribution d
      /\ Forall (fun x => 0 <= x <= 1) d.
Proof.
  intros self a Hwf _ Hne.
  destruct (compute_date_scores_spec self a Hwf)
    as (d & Hd & _ & Hsum & _).
  exists d. split; [exact Hd |].
  assert (Hnn : Forall (fun x => 0 <= x) d).
  { rewrite compute_date_scores_unfold in Hd.
    destruct (scatter_add_ _ _ _) as [r |] eqn:Hr; [| discriminate].
    cbn [bind] in Hd. injection Hd as <-.
    eapply scatter_add_nonneg; [| | exact Hr].
    - unfold new_zeros. apply Forall_forall. intros x Hx.
      apply repeat_spec in Hx. lra.
    - apply date_token_probs_nonneg. }
  split; [split; [exact Hnn | exact (Hsum Hne)] |].
  destruct (nonneg_le_sum d Hnn) as (_ & Hle).
  rewrite (Hsum Hne) in Hle.
  apply Forall_forall. intros x Hx.
  rewrite Forall_forall in Hnn, Hle. split; auto.
Qed.

(** The two-date passage with the attention on its first token. *)
Lemma compute_date_scores_is_distribution_witness :
  exists d,
    compute_date_scores Examples.two_dates [1; 0] = Ok (d, d)
    /\ distribution d
    /\ Forall (fun x => 0 <= x <= 1) d.
Proof.
  exact (compute_date_scores_is_distribution Examples.two_dates [1; 0]
           two_dates_well_formed eq_refl ltac:(discriminate)).
Defined.

(** X11: on a well-formed instance the probability of date [j] is the sum
    of the masked-softmax probabilities of the passage tokens that scatter
    to [j]: the tokens mapped to date [j] and, for [j = 0], also the tokens
    that are no date. *)
Theorem compute_date_scores_buckets :
  forall (self : t) (passage_attention : Tensor1) (j : nat),
    well_formed self ->
    length passage_attention = length (passage_mask self) ->
    exists d,
      compute_date_scores self passage_attention = Ok (d, d)
      /\ nth j d 0
         = big_sum (length (passage_tokenidx2dateidx self))
             (fun k =>
                if (scatter_index (nth k (passage_tokenidx2dateidx self) (-1)%Z)
                    =? Z.of_nat j)%Z
                then nth k (masked_softmax_memory_efficient
                              (passage_datetoken_attention self passage_attention)
                              (map (fun i => (i >? -1)%Z)
                                   (passage_tokenidx2dateidx self))) 0
                else 0).
Proof.
  intros self a j Hwf _.
  pose proof (date_token_probs_length self a Hwf) as Hlen.
  destruct (compute_date_scores_spec self a Hwf) as (d & Hd & _).
  exists d. split; [exact Hd |].
  rewrite compute_date_scores_unfold in Hd.
  destruct (scatter_add_ _ _ _) as [r |] eqn:Hr; [| discriminate].
  cbn [bind] in Hd. injection Hd as <-.
  destruct Hwf as (Hidx & _).
  assert (Hsrc : length (masked_softmax_memory_efficient
                           (passage_datetoken_attention self a)
                           (map (fun i => (i >? -1)%Z)
                                (passage_tokenidx2dateidx self)))
                 = length (map scatter_index (passage_tokenidx2dateidx self)))
    by (rewrite length_map, Hlen, Hidx; reflexivity).
  rewrite (scatter_add_nth j _ _ _ _ Hsrc Hr).
  unfold new_zeros.
  replace (nth j (repeat 0 (num_passage_dates self)) 0) with 0
    by (symmetry; destruct (Nat.lt_ge_cases j (num_passage_dates self));
        [apply nth_repeat_lt; assumption
        | apply nth_overflow; rewrite repeat_length; assumption]).
  rewrite Rplus_0_l.
  rewrite (tsum_zipWith_big_sum _ _ _ 0%Z 0)
    by (rewrite length_map, Hlen, Hidx; reflexivity).
  rewrite length_map. apply big_sum_ext. intros k Hk.
  now rewrite (map_nth_in scatter_index _ k (-1)%Z 0%Z) by lia.
Qed.

(** The probability of the first date of the two-date passage. *)
Lemma compute_date_scores_buckets_witness :
  exists d,
    compute_date_scores Examples.two_dates [1; 0] = Ok (d, d)
    /\ nth 0 d 0
       = big_sum 2
           (fun k =>
              if (scatter_index (nth k [0%Z; 1%Z] (-1)%Z) =? 0)%Z
              then nth k (masked_softmax_memory_efficient
                            (passage_datetoken_attention Examples.two_dates
                                                         [1; 0])
                            (map (fun i => (i >? -1)%Z) [0%Z; 1%Z])) 0
              else 0).
Proof.
  exact (compute_date_scores_buckets Examples.two_dates [1; 0] 0
           two_dates_well_formed eq_refl).
Defined.

(** X12: with a single date in the list and at least one passage token the
    engine returns the distribution [[1]] whatever the attention and the
    similarity matrix are. *)
Theorem compute_date_scores_single_date :
  forall (self : t) (passage_attention : Tensor1),
    well_formed self ->
    length passage_attention = length (passage_mask self) ->
    passage_mask self <> [] ->
    num_passage_dates self = 1%nat ->
    compute_date_scores self passage_attention = Ok ([1], [1]).
Proof.
  intros self a Hwf _ Hne HD.
  destruct (compute_date_scores_spec self a Hwf)
    as (d & Hd & Hlen & Hsum & _).
  rewrite HD in Hlen.
  destruct d as [| x [| y d]]; try discriminate.
  specialize (Hsum Hne). unfold tsum in Hsum; simpl in Hsum.
  replace x with 1 in Hd by lra. exact Hd.
Qed.

(** The one-date passage with an attention of 0.2 on its token. *)
Lemma compute_date_scores_single_date_witness :
  compute_date_scores Examples.one_date [0.2] = Ok ([1], [1]).
Proof.
  exact (compute_date_scores_single_date Examples.one_date [0.2]
           one_date_well_formed eq_refl ltac:(discriminate) eq_refl).
Defined.

(** X13: with an empty date list and at least one passage token the engine
    raises the runtime error of [scatter_add_]: the token scatters to index
    0 of a vector without cells. *)
Theorem compute_date_scores_raises_without_dates :
  forall (self : t) (passage_attention : Tensor1),
    num_passage_dates self = 0%nat ->
    passage_tokenidx2dateidx self <> [] ->
    exists msg,
      compute_date_scores self passage_attention = Raise (RuntimeError msg).
Proof.
  intros self a HD Hidx. rewrite compute_date_scores_unfold, HD.
  destruct (passage_tokenidx2dateidx self) as [| i idx]; [congruence |].
  cbn [map]. set (probs := masked_softmax_memory_efficient _ _).
  destruct probs as [| s probs]; cbn [scatter_add_ bind];
    [eexists; reflexivity |].
  pose proof (scatter_index_range i).
  replace ((0 <=? scatter_index i)%Z
           && (scatter_index i <? Z.of_nat (length (new_zeros 0)))%Z)%bool
    with false
    by (symmetry; apply andb_false_iff; right; apply Z.ltb_ge; simpl; lia).
  eexists; reflexivity.
Qed.

(** A passage of one token and no date. *)
Lemma compute_date_scores_raises_without_dates_witness :
  exists msg,
    compute_date_scores MoreExamples.no_dates [1] = Raise (RuntimeError msg).
Proof.
  exact (compute_date_scores_raises_without_dates MoreExamples.no_dates [1]
           eq_refl ltac:(discriminate)).
Defined.

End DateScoresMore.

(** ** The expected truth value of a comparison, continued *)

Section ExpectedComparisonMore.

Import DropLanguage.

Arguments tsum : simpl never.

Lemma big_sum_nonneg (n : nat) (f : nat -> R) :
  (forall i, (i < n)%nat -> 0 <= f i) -> 0 <= big_sum n f.
Proof.
  induction n as [| n IH]; intros H; [rewrite big_sum_0; lra |].
  rewrite big_sum_S. pose proof (H n ltac:(lia)).
  pose proof (IH (fun i Hi => H i ltac:(lia))). lra.
Qed.

Lemma big_sum_le (n : nat) (f g : nat -> R) :
  (forall i, (i < n)%nat -> f i <= g i) -> big_sum n f <= big_sum n g.
Proof.
  induction n as [| n IH]; intros H; [rewrite !big_sum_0; lra |].
  rewrite !big_sum_S. pose proof (H n ltac:(lia)).
  pose proof (IH (fun i Hi => H i ltac:(lia))). lra.
Qed.

Lemma big_sum_scale (n : nat) (c : R) (f : nat -> R) :
  big_sum n (fun i => c * f i) = c * big_sum n f.
Proof.
  induction n as [| n IH]; [rewrite !big_sum_0; lra |].
  rewrite !big_sum_S, IH. lra.
Qed.

Lemma nth_nonneg (d : Tensor1) (i : nat) :
  Forall (fun x => 0 <= x) d -> 0 <= nth i d 0.
Proof.
  intros H. destruct (Nat.lt_ge_cases i (length d)) as [Hi | Hi].
  - rewrite Forall_forall in H. apply H, nth_In, Hi.
  - rewrite nth_overflow by assumption. lra.
Qed.

Lemma product_of_sums (n : nat) (d1 d2 : Tensor1) :
  length d1 = n -> length d2 = n ->
  big_sum n (fun i => big_sum n (fun j => nth i d1 0 * nth j d2 0))
  = tsum d1 * tsum d2.
Proof.
  intros H1 H2.
  rewrite (big_sum_nth d1 n H1), (big_sum_nth d2 n H2).
  set (B := big_sum n (fun j => nth j d2 0)).
  rewrite (big_sum_ext n _ (fun i => B * nth i d1 0)).
  - rewrite big_sum_scale. apply Rmult_comm.
  - intros i _. rewrite big_sum_scale. apply Rmult_comm.
Qed.

(** The two expectations over a pair of sub-distributions are
    probabilities of exclusive events. *)
Lemma expectation_bounds (dates : list Date.t) (d1 d2 : Tensor1) :
  length d1 = length dates -> length d2 = length dates ->
  Forall (fun x => 0 <= x) d1 -> Forall (fun x => 0 <= x) d2 ->
  tsum d1 <= 1 -> tsum d2 <= 1 ->
  let p := big_sum (length dates) (fun i =>
             big_sum (length dates) (fun j =>
               date_greater dates i j * (nth i d1 0 * nth j d2 0))) in
  let q := big_sum (length dates) (fun i =>
             big_sum (length dates) (fun j =>
               date_greater dates j i * (nth i d1 0 * nth j d2 0))) in
  0 <= p /\ 0 <= q /\ p + q <= 1.
Proof.
  intros H1 H2 Hn1 Hn2 Hs1 Hs2. cbv zeta.
  assert (Hterm : forall i j, 0 <= nth i d1 0 * nth j d2 0)
    by (intros i j; apply Rmult_le_pos; now apply nth_nonneg).
  assert (Hg : forall i j, 0 <= date_greater dates i j
                           /\ date_greater dates i j
                              + date_greater dates j i <= 1).
  { intros i j.
    destruct (date_greater_boolean dates i j) as ([Ha | Ha] & Hx);
      destruct (date_greater_boolean dates j i) as ([Hb | Hb] & _);
      rewrite Ha, Hb in *; lra. }
  split; [| split].
  - apply big_sum_nonneg; intros i _. apply big_sum_nonneg; intros j _.
    apply Rmult_le_pos; [apply Hg | apply Hterm].
  - apply big_sum_nonneg; intros i _. apply big_sum_nonneg; intros j _.
    apply Rmult_le_pos; [apply Hg | apply Hterm].
  - rewrite <- big_sum_plus.
    apply Rle_trans with
      (big_sum (length dates) (fun i =>
         big_sum (length dates) (fun j => nth i d1 0 * nth j d2 0))).
    + apply big_sum_le; intros i _. rewrite <- big_sum_plus.
      apply big_sum_le; intros j _.
      pose proof (Hterm i j). destruct (Hg i j) as (_ & Hle). nra.
    + rewrite (product_of_sums _ d1 d2 H1 H2).
      pose proof (proj1 (nonneg_le_sum d1 Hn1)).
      pose proof (proj1 (nonneg_le_sum d2 Hn2)). nra.
Qed.

(** X15: on an instance built by [__init__], for two probability
    distributions over its dates, the expectation of "greater" and the
    expectation of "lesser" are both between 0 and 1 and their sum is at
    most 1. *)
Theorem expected_date_comparison_probabilities :
  forall (embedded encoded : Tensor2) (mask : list bool) (idx : list Z)
         (dates : list Date.t) (params : ExecutorParameters)
         (passage_to_use : string) (self : t) (d1 d2 : Tensor1),
    __init__ embedded encoded mask idx dates params passage_to_use = Ok self ->
    length d1 = length dates -> length d2 = length dates ->
    distribution d1 -> distribution d2 ->
    exists p q,
      expected_date_comparison self d1 d2 "greater" = Ok p
      /\ expected_date_comparison self d1 d2 "lesser" = Ok q
      /\ 0 <= p <= 1 /\ 0 <= q <= 1 /\ p + q <= 1.
Proof.
  intros embedded encoded mask idx dates params ptu self d1 d2
         Hinit H1 H2 (Hn1 & Hs1) (Hn2 & Hs2).
  destruct (init_fields _ _ _ _ _ _ _ _ Hinit) as (_ & _ & _ & _ & Hgt & Hlt).
  destruct (expected_date_comparison_sums self dates d1 d2 Hgt Hlt H1 H2)
    as (Eg & El).
  destruct (expectation_bounds dates d1 d2 H1 H2 Hn1 Hn2
              ltac:(lra) ltac:(lra)) as (Hp & Hq & Hpq).
  do 2 eexists. split; [exact Eg |]. split; [exact El |].
  repeat split; lra.
Qed.

(** The two-date passage with the point distributions of its dates. *)
Lemma expected_date_comparison_probabilities_witness :
  exists p q,
    expected_date_comparison Examples.two_dates [1; 0] [0; 1] "greater" = Ok p
    /\ expected_date_comparison Examples.two_dates [1; 0] [0; 1] "lesser"
       = Ok q
    /\ 0 <= p <= 1 /\ 0 <= q <= 1 /\ p + q <= 1.
Proof.
  refine (expected_date_comparison_probabilities
            [] [[1; 0]; [0; 1]] [true; true] [0%Z; 1%Z]
            [Examples.d2001; Examples.d2002] Examples.params "encoded"
            Examples.two_dates [1; 0] [0; 1]
            (build_is_init _ _ _ _ _) eq_refl eq_refl _ _);
    (split; [repeat constructor; lra | unfold tsum; simpl; lra]).
Defined.

End ExpectedComparisonMore.

(** ** More on the comparison predicates *)

Section DateComparisonMore.

Import DropLanguage.

Arguments tsum : simpl never.

Lemma date_scores_nonneg (self : t) (a d : Tensor1) :
  compute_date_scores self a = Ok (d, d) -> Forall (fun x => 0 <= x) d.
Proof.
  rewrite compute_date_scores_unfold. intros Hd.
  destruct (scatter_add_ _ _ _) as [r |] eqn:Hr; [| discriminate].
  cbn [bind] in Hd. injection Hd as <-.
  eapply scatter_add_nonneg; [| | exact Hr].
  - unfold new_zeros. apply Forall_forall. intros x Hx.
    apply repeat_spec in Hx. lra.
  - apply date_token_probs_nonneg.
Qed.

Lemma date_scores_sum_le_1 (self : t) (a d : Tensor1) :
  well_formed self -> compute_date_scores self a = Ok (d, d) -> tsum d <= 1.
Proof.
  intros Hwf Hd.
  destruct (compute_date_scores_spec self a Hwf)
    as (d' & Hd' & _ & Hsum & _ & Hempty).
  rewrite Hd in Hd'. injection Hd' as <-.
  destruct (passage_mask self) as [| b m] eqn:Hm.
  - rewrite (Hempty eq_refl), tsum_repeat0. lra.
  - rewrite Hsum by discriminate. lra.
Qed.

(** The results of both predicates with the bounds on the two
    expectations. *)
Lemma comparison_bounds (embedded encoded : Tensor2) (mask : list bool)
    (idx : list Z) (dates : list Date.t) (params : ExecutorParameters)
    (passage_to_use : string) (self : t) (a1 a2 : PassageAttention.t) :
  __init__ embedded encoded mask idx dates params passage_to_use = Ok self ->
  well_formed self ->
  exists p q l,
    compare_date_greater_than self a1 a2
    = Ok (PassageAttention_answer.__init__
            (blend p (tmul (PassageAttention._value a1) (mask_float mask))
                     (tmul (PassageAttention._value a2) (mask_float mask))) l)
    /\ compare_date_lesser_than self a1 a2
       = Ok (PassageAttention_answer.__init__
               (blend (1 - q)
                      (tmul (PassageAttention._value a1) (mask_float mask))
                      (tmul (PassageAttention._value a2) (mask_float mask))) l)
    /\ greater_than_weight self a1 a2 = Ok p
    /\ lesser_than_weight self a1 a2 = Ok (1 - q)
    /\ 0 <= p /\ 0 <= q /\ p + q <= 1.
Proof.
  intros Hinit Hwf.
  destruct (comparison_spec _ _ _ _ _ _ _ self a1 a2 Hinit Hwf)
    as (d1 & d2 & p & q & Hd1 & Hd2 & Hp & Hq & Hg & Hl & Wg & Wl).
  destruct (init_fields _ _ _ _ _ _ _ _ Hinit) as (_ & _ & _ & HD & _).
  destruct (compute_date_scores_spec self
              (tmul (PassageAttention._value a1) (mask_float mask)) Hwf)
    as (e1 & He1 & Hl1 & _).
  destruct (compute_date_scores_spec self
              (tmul (PassageAttention._value a2) (mask_float mask)) Hwf)
    as (e2 & He2 & Hl2 & _).
  rewrite Hd1 in He1. rewrite Hd2 in He2.
  injection He1 as <-. injection He2 as <-.
  rewrite HD in Hl1, Hl2.
  destruct (expectation_bounds dates d1 d2 Hl1 Hl2
              (date_scores_nonneg _ _ _ Hd1) (date_scores_nonneg _ _ _ Hd2)
              (date_scores_sum_le_1 _ _ _ Hwf Hd1)
              (date_scores_sum_le_1 _ _ _ Hwf Hd2)) as (Bp & Bq & Bpq).
  rewrite <- Hp in Bp, Bpq. rewrite <- Hq in Bq, Bpq.
  exists p, q. eexists.
  split; [exact Hg |]. split; [exact Hl |].
  split; [exact Wg |]. split; [exact Wl |]. auto.
Qed.

Lemma blend_length (p : R) (u v : Tensor1) :
  length (blend p u v) = Nat.min (length u) (length v).
Proof. apply zipWith_length. Qed.

Lemma blend_nth (p : R) (u v : Tensor1) (i : nat) :
  length u = length v ->
  nth i (blend p u v) 0 = p * nth i u 0 + (1 - p) * nth i v 0.
Proof.
  unfold blend.
  revert v i; induction u as [| x u IH]; intros [| y v] [| i] H;
    simpl in *; try discriminate; try lra.
  apply IH. lia.
Qed.

Lemma blend_same (p : R) (u : Tensor1) : blend p u u = u.
Proof.
  unfold blend. induction u as [| x u IH]; simpl; [reflexivity |].
  rewrite IH. f_equal. lra.
Qed.

Lemma tsum_blend (p : R) (u v : Tensor1) :
  length u = length v ->
  tsum (blend p u v) = p * tsum u + (1 - p) * tsum v.
Proof.
  unfold blend.
  revert v; induction u as [| x u IH]; intros [| y v] H; try discriminate.
  - unfold tsum; simpl; lra.
  - simpl. rewrite !tsum_cons, IH by (simpl in H; lia). lra.
Qed.

Lemma masked_attention_length (a : Tensor1) (mask : list bool) :
  length a = length mask -> length (tmul a (mask_float mask)) = length mask.
Proof.
  intros H. unfold tmul, mask_float.
  rewrite zipWith_length, length_map, H. apply Nat.min_id.
Qed.

Lemma masked_attention_zero (a : Tensor1) (mask : list bool) (i : nat) :
  nth i mask true = false -> nth i (tmul a (mask_float mask)) 0 = 0.
Proof.
  unfold tmul, mask_float.
  revert a i; induction mask as [| b mask IH]; intros [| x a] [| i] H;
    simpl in *; try discriminate; try reflexivity.
  - subst b. simpl. lra.
  - now apply IH.
Qed.

(** Attentions that agree inside the mask are the same once masked. *)
Lemma masked_attention_ext (mask : list bool) :
  forall a a' : Tensor1,
    length a = length a' ->
    (forall i, nth i mask false = true -> nth i a 0 = nth i a' 0) ->
    tmul a (mask_float mask) = tmul a' (mask_float mask).
Proof.
  unfold tmul, mask_float.
  induction mask as [| b mask IH]; intros [| x a] [| y a'] Hlen H;
    try discriminate; try reflexivity.
  simpl. f_equal.
  - destruct b; simpl;
      [pose proof (H 0%nat eq_refl) as H0; simpl in H0; rewrite H0 |]; lra.
  - apply IH; [simpl in Hlen; lia |].
    intros i Hi. exact (H (S i) Hi).
Qed.

(** X16: on a well-formed instance built by [__init__],
    [compare_date_lesser_than] of two attentions blends them with the weight
    [1 - w] on the first, where [w] is the weight that
    [compare_date_greater_than] puts on the first attention once the two
    attentions are exchanged. *)
Theorem compare_date_lesser_than_exchanges_greater :
  forall (embedded encoded : Tensor2) (mask : list bool) (idx : list Z)
         (dates : list Date.t) (params : ExecutorParameters)
         (passage_to_use : string) (self : t) (a1 a2 : PassageAttention.t),
    __init__ embedded encoded mask idx dates params passage_to_use = Ok self ->
    well_formed self ->
    length (PassageAttention._value a1) = length mask ->
    length (PassageAttention._value a2) = length mask ->
    exists w answer,
      greater_than_weight self a2 a1 = Ok w
      /\ lesser_than_weight self a1 a2 = Ok (1 - w)
      /\ compare_date_lesser_than self a1 a2 = Ok answer
      /\ PassageAttention_answer._value answer
         = blend (1 - w)
                 (tmul (PassageAttention._value a1) (mask_float mask))
                 (tmul (PassageAttention._value a2) (mask_float mask)).
Proof.
  intros embedded encoded mask idx dates params ptu self a1 a2
         Hinit Hwf _ _.
  destruct (lesser_weight_exchanged _ _ _ _ _ _ _ self a1 a2 Hinit Hwf)
    as (w & Hw & Hl).
  destruct (comparison_bounds _ _ _ _ _ _ _ self a1 a2 Hinit Hwf)
    as (p & q & l & _ & Hc & _ & Hl' & _).
  rewrite Hl in Hl'. injection Hl' as Hwq.
  exists w. eexists. split; [exact Hw |]. split; [exact Hl |].
  split; [exact Hc |]. cbn. now rewrite Hwq.
Qed.

(** The two-date passage. *)
Lemma compare_date_lesser_than_exchanges_greater_witness :
  exists w answer,
    greater_than_weight Examples.two_dates Examples.on_second_token
                        Examples.on_first_token = Ok w
    /\ lesser_than_weight Examples.two_dates Examples.on_first_token
                          Examples.on_second_token = Ok (1 - w)
    /\ compare_date_lesser_than Examples.two_dates Examples.on_first_token
                                Examples.on_second_token = Ok answer
    /\ PassageAttention_answer._value answer
       = blend (1 - w) (tmul [1; 0] (mask_float [true; true]))
                       (tmul [0; 1] (mask_float [true; true])).
Proof.
  exact (compare_date_lesser_than_exchanges_greater
           [] [[1; 0]; [0; 1]] [true; true] [0%Z; 1%Z]
           [Examples.d2001; Examples.d2002] Examples.params "encoded"
           Examples.two_dates Examples.on_first_token Examples.on_second_token
           (build_is_init _ _ _ _ _) two_dates_well_formed eq_refl eq_refl).
Defined.

(** X17: on a well-formed instance built by [__init__] both predicates
    return, and they carry the same loss on the same pair of attentions;
    the loss does not change when the two attentions are exchanged. *)
Theorem comparison_loss_shared_and_symmetric :
  forall (embedded encoded : Tensor2) (mask : list bool) (idx : list Z)
         (dates : list Date.t) (params : ExecutorParameters)
         (passage_to_use : string) (self : t) (a1 a2 : PassageAttention.t),
    __init__ embedded encoded mask idx dates params passage_to_use = Ok self ->
    well_formed self ->
    length (PassageAttention._value a1) = length mask ->
    length (PassageAttention._value a2) = length mask ->
    exists greater lesser greater' lesser',
      compare_date_greater_than self a1 a2 = Ok greater
      /\ compare_date_lesser_than self a1 a2 = Ok lesser
      /\ compare_date_greater_than self a2 a1 = Ok greater'
      /\ compare_date_lesser_than self a2 a1 = Ok lesser'
      /\ PassageAttention_answer.loss lesser
         = PassageAttention_answer.loss greater
      /\ PassageAttention_answer.loss greater'
         = PassageAttention_answer.loss greater
      /\ PassageAttention_answer.loss lesser'
         = PassageAttention_answer.loss greater.
Proof.
  intros embedded encoded mask idx dates params ptu self a1 a2
         Hinit Hwf _ _.
  destruct (comparison_spec _ _ _ _ _ _ _ self a1 a2 Hinit Hwf)
    as (d1 & d2 & p & q & Hd1 & Hd2 & _ & _ & Hg & Hl & _).
  destruct (comparison_spec _ _ _ _ _ _ _ self a2 a1 Hinit Hwf)
    as (e2 & e1 & p' & q' & He2 & He1 & _ & _ & Hg' & Hl' & _).
  rewrite Hd2 in He2. rewrite Hd1 in He1.
  injection He2 as <-. injection He1 as <-.
  do 4 eexists.
  split; [exact Hg |]. split; [exact Hl |].
  split; [exact Hg' |]. split; [exact Hl' |].
  cbn. repeat split; lra.
Qed.

(** The two-date passage. *)
Lemma comparison_loss_shared_and_symmetric_witness :
  exists greater lesser greater' lesser',
    compare_date_greater_than Examples.two_dates Examples.on_first_token
                              Examples.on_second_token = Ok greater
    /\ compare_date_lesser_than Examples.two_dates Examples.on_first_token
                                Examples.on_second_token = Ok lesser
    /\ compare_date_greater_than Examples.two_dates Examples.on_second_token
                                 Examples.on_first_token = Ok greater'
    /\ compare_date_lesser_than Examples.two_dates Examples.on_second_token
                                Examples.on_first_token = Ok lesser'
    /\ PassageAttention_answer.loss lesser
       = PassageAttention_answer.loss greater
    /\ PassageAttention_answer.loss greater'
       = PassageAttention_answer.loss greater
    /\ PassageAttention_answer.loss lesser'
       = PassageAttention_answer.loss greater.
Proof.
  exact (comparison_loss_shared_and_symmetric
           [] [[1; 0]; [0; 1]] [true; true] [0%Z; 1%Z]
           [Examples.d2001; Examples.d2002] Examples.params "encoded"
           Examples.two_dates Examples.on_first_token Examples.on_second_token
           (build_is_init _ _ _ _ _) two_dates_well_formed eq_refl eq_refl).
Defined.

End DateComparisonMore.

(** ** The attention that the comparison predicates return *)

Section ComparisonOutput.

Import DropLanguage.

Arguments tsum : simpl never.

Lemma between_blend (p x y : R) :
  0 <= p <= 1 -> Rmin x y <= p * x + (1 - p) * y <= Rmax x y.
Proof.
  intros Hp. unfold Rmin, Rmax. destruct (Rle_dec x y); split; nra.
Qed.

(** X18: on a well-formed instance built by [__init__], for attentions of
    the passage length, both predicates return an attention of the passage
    length that is 0 at every position outside the passage mask. *)
Theorem comparison_output_is_masked :
  forall (embedded encoded : Tensor2) (mask : list bool) (idx : list Z)
         (dates : list Date.t) (params : ExecutorParameters)
         (passage_to_use : string) (self : t) (a1 a2 : PassageAttention.t),
    __init__ embedded encoded mask idx dates params passage_to_use = Ok self ->
    well_formed self ->
    length (PassageAttention._value a1) = length mask ->
    length (PassageAttention._value a2) = length mask ->
    exists greater lesser,
      compare_date_greater_than self a1 a2 = Ok greater
      /\ compare_date_lesser_than self a1 a2 = Ok lesser
      /\ length (PassageAttention_answer._value greater) = length mask
      /\ length (PassageAttention_answer._value lesser) = length mask
      /\ (forall i,
            nth i mask true = false ->
            nth i (PassageAttention_answer._value greater) 0 = 0
            /\ nth i (PassageAttention_answer._value lesser) 0 = 0).
Proof.
  intros embedded encoded mask idx dates params ptu self a1 a2
         Hinit Hwf H1 H2.
  destruct (comparison_bounds _ _ _ _ _ _ _ self a1 a2 Hinit Hwf)
    as (p & q & l & Hg & Hl & _).
  pose proof (masked_attention_length _ _ H1) as L1.
  pose proof (masked_attention_length _ _ H2) as L2.
  do 2 eexists. split; [exact Hg |]. split; [exact Hl |].
  cbn [PassageAttention_answer._value].
  split; [rewrite blend_length, L1, L2; apply Nat.min_id |].
  split; [rewrite blend_length, L1, L2; apply Nat.min_id |].
  intros i Hi.
  rewrite !blend_nth by (now rewrite L1, L2).
  rewrite !(masked_attention_zero _ mask i Hi). split; lra.
Qed.

(** In [second_masked] the second token is outside the mask. *)
Lemma comparison_output_is_masked_witness :
  exists greater lesser,
    compare_date_greater_than MoreExamples.second_masked
      Examples.on_first_token Examples.on_second_token = Ok greater
    /\ compare_date_lesser_than MoreExamples.second_masked
         Examples.on_first_token Examples.on_second_token = Ok lesser
    /\ length (PassageAttention_answer._value greater) = 2%nat
    /\ length (PassageAttention_answer._value lesser) = 2%nat
    /\ (forall i,
          nth i [true; false] true = false ->
          nth i (PassageAttention_answer._value greater) 0 = 0
          /\ nth i (PassageAttention_answer._value lesser) 0 = 0).
Proof.
  refine (comparison_output_is_masked
            [] [[1; 0]; [0; 1]] [true; false] [0%Z; 1%Z]
            [Examples.d2001; Examples.d2002] Examples.params "encoded"
            MoreExamples.second_masked Examples.on_first_token
            Examples.on_second_token
            (build_is_init _ _ _ _ _) _ eq_refl eq_refl).
  unfold well_formed; cbn. repeat split; repeat constructor.
Defined.

(** X19: on a well-formed instance built by [__init__], comparing an
    attention with itself returns that attention, masked, from both
    predicates, whatever the dates are. *)
Theorem comparison_of_an_attention_with_itself :
  forall (embedded encoded : Tensor2) (mask : list bool) (idx : list Z)
         (dates : list Date.t) (params : ExecutorParameters)
         (passage_to_use : string) (self : t) (a : PassageAttention.t),
    __init__ embedded encoded mask idx dates params passage_to_use = Ok self ->
    well_formed self ->
    length (PassageAttention._value a) = length mask ->
    exists greater lesser,
      compare_date_greater_than self a a = Ok greater
      /\ compare_date_lesser_than self a a = Ok lesser
      /\ PassageAttention_answer._value greater
         = tmul (PassageAttention._value a) (mask_float mask)
      /\ PassageAttention_answer._value lesser
         = tmul (PassageAttention._value a) (mask_float mask).
Proof.
  intros embedded encoded mask idx dates params ptu self a Hinit Hwf _.
  destruct (comparison_bounds _ _ _ _ _ _ _ self a a Hinit Hwf)
    as (p & q & l & Hg & Hl & _).
  do 2 eexists. split; [exact Hg |]. split; [exact Hl |].
  cbn [PassageAttention_answer._value]. now rewrite !blend_same.
Qed.

(** The two-date passage, the attention on its first token. *)
Lemma comparison_of_an_attention_with_itself_witness :
  exists greater lesser,
    compare_date_greater_than Examples.two_dates Examples.on_first_token
                              Examples.on_first_token = Ok greater
    /\ compare_date_lesser_than Examples.two_dates Examples.on_first_token
                                Examples.on_first_token = Ok lesser
    /\ PassageAttention_answer._value greater
       = tmul [1; 0] (mask_float [true; true])
    /\ PassageAttention_answer._value lesser
       = tmul [1; 0] (mask_float [true; true]).
Proof.
  exact (comparison_of_an_attention_with_itself
           [] [[1; 0]; [0; 1]] [true; true] [0%Z; 1%Z]
           [Examples.d2001; Examples.d2002] Examples.params "encoded"
           Examples.two_dates Examples.on_first_token
           (build_is_init _ _ _ _ _) two_dates_well_formed eq_refl).
Defined.

(** X20: on a well-formed instance built by [__init__], the weights that
    the two predicates put on the first attention are probabilities, and
    the weight of "lesser" is never below the weight of "greater"; each
    predicate returns the blend with its weight, so every entry of the
    returned attention lies between the entries of the two masked
    attentions, and its total mass is the same blend of their masses. *)
Theorem comparison_weights_are_probabilities :
  forall (embedded encoded : Tensor2) (mask : list bool) (idx : list Z)
         (dates : list Date.t) (params : ExecutorParameters)
         (passage_to_use : string) (self : t) (a1 a2 : PassageAttention.t),
    __init__ embedded encoded mask idx dates params passage_to_use = Ok self ->
    well_formed self ->
    length (PassageAttention._value a1) = length mask ->
    length (PassageAttention._value a2) = length mask ->
    exists wg wl greater lesser,
      greater_than_weight self a1 a2 = Ok wg
      /\ lesser_than_weight self a1 a2 = Ok wl
      /\ 0 <= wg /\ wg <= wl /\ wl <= 1
      /\ compare_date_greater_than self a1 a2 = Ok greater
      /\ compare_date_lesser_than self a1 a2 = Ok lesser
      /\ (forall i,
            Rmin (nth i (tmul (PassageAttention._value a1) (mask_float mask)) 0)
                 (nth i (tmul (PassageAttention._value a2) (mask_float mask)) 0)
            <= nth i (PassageAttention_answer._value greater) 0
            <= Rmax (nth i (tmul (PassageAttention._value a1)
                                 (mask_float mask)) 0)
                    (nth i (tmul (PassageAttention._value a2)
                                 (mask_float mask)) 0))
      /\ (forall i,
            Rmin (nth i (tmul (PassageAttention._value a1) (mask_float mask)) 0)
                 (nth i (tmul (PassageAttention._value a2) (mask_float mask)) 0)
            <= nth i (PassageAttention_answer._value lesser) 0
            <= Rmax (nth i (tmul (PassageAttention._value a1)
                                 (mask_float mask)) 0)
                    (nth i (tmul (PassageAttention._value a2)
                                 (mask_float mask)) 0))
      /\ tsum (PassageAttention_answer._value greater)
         = wg * tsum (tmul (PassageAttention._value a1) (mask_float mask))
           + (1 - wg) * tsum (tmul (PassageAttention._value a2)
                                   (mask_float mask))
      /\ tsum (PassageAttention_answer._value lesser)
         = wl * tsum (tmul (PassageAttention._value a1) (mask_float mask))
           + (1 - wl) * tsum (tmul (PassageAttention._value a2)
                                   (mask_float mask)).
Proof.
  intros embedded encoded mask idx dates params ptu self a1 a2
         Hinit Hwf H1 H2.
  destruct (comparison_bounds _ _ _ _ _ _ _ self a1 a2 Hinit Hwf)
    as (p & q & l & Hg & Hl & Wg & Wl & Bp & Bq & Bpq).
  pose proof (masked_attention_length _ _ H1) as L1.
  pose proof (masked_attention_length _ _ H2) as L2.
  assert (L : length (tmul (PassageAttention._value a1) (mask_float mask))
              = length (tmul (PassageAttention._value a2) (mask_float mask)))
    by now rewrite L1, L2.
  exists p, (1 - q). do 2 eexists.
  split; [exact Wg |]. split; [exact Wl |].
  split; [lra |]. split; [lra |]. split; [lra |].
  split; [exact Hg |]. split; [exact Hl |].
  cbn [PassageAttention_answer._value].
  split; [| split; [| split]].
  - intros i. rewrite blend_nth by exact L. apply between_blend. lra.
  - intros i. rewrite blend_nth by exact L. apply between_blend. lra.
  - now apply tsum_blend.
  - now apply tsum_blend.
Qed.

(** The two-date passage: the weight of "greater" is at most the weight of
    "lesser". *)
Lemma comparison_weights_are_probabilities_witness :
  exists wg wl,
    greater_than_weight Examples.two_dates Examples.on_first_token
                        Examples.on_second_token = Ok wg
    /\ lesser_than_weight Examples.two_dates Examples.on_first_token
                          Examples.on_second_token = Ok wl
    /\ 0 <= wg /\ wg <= wl /\ wl <= 1.
Proof.
  destruct (comparison_weights_are_probabilities
              [] [[1; 0]; [0; 1]] [true; true] [0%Z; 1%Z]
              [Examples.d2001; Examples.d2002] Examples.params "encoded"
              Examples.two_dates Examples.on_first_token
              Examples.on_second_token
              (build_is_init _ _ _ _ _) two_dates_well_formed eq_refl eq_refl)
    as (wg & wl & _ & _ & Hg & Hl & H0 & H1 & H2 & _).
  exists wg, wl. auto.
Defined.

(** X21: the comparison predicates read their attentions inside the
    passage mask only: attentions that agree at every position inside the
    mask give the same result, value and loss, error or not. *)
Theorem comparison_ignores_masked_attention :
  forall (self : t) (a1 a1' a2 a2' : PassageAttention.t),
    length (PassageAttention._value a1) = length (PassageAttention._value a1') ->
    length (PassageAttention._value a2) = length (PassageAttention._value a2') ->
    (forall i,
        nth i (passage_mask self) false = true ->
        nth i (PassageAttention._value a1) 0
        = nth i (PassageAttention._value a1') 0
        /\ nth i (PassageAttention._value a2) 0
           = nth i (PassageAttention._value a2') 0) ->
    compare_date_greater_than self a1 a2 = compare_date_greater_than self a1' a2'
    /\ compare_date_lesser_than self a1 a2
       = compare_date_lesser_than self a1' a2'.
Proof.
  intros self a1 a1' a2 a2' H1 H2 Hagree.
  unfold compare_date_greater_than, compare_date_lesser_than.
  rewrite (masked_attention_ext (passage_mask self) _ _ H1
             (fun i Hi => proj1 (Hagree i Hi))).
  rewrite (masked_attention_ext (passage_mask self) _ _ H2
             (fun i Hi => proj2 (Hagree i Hi))).
  split; reflexivity.
Qed.

(** In [second_masked] the attention on the masked second token does not
    matter. *)
Lemma comparison_ignores_masked_attention_witness :
  compare_date_greater_than MoreExamples.second_masked
    (PassageAttention.__init__ [1; 0]) (PassageAttention.__init__ [1; 0])
  = compare_date_greater_than MoreExamples.second_masked
      (PassageAttention.__init__ [1; 5]) (PassageAttention.__init__ [1; 7]).
Proof.
  refine (proj1 (comparison_ignores_masked_attention
                   MoreExamples.second_masked
                   (PassageAttention.__init__ [1; 0])
                   (PassageAttention.__init__ [1; 5])
                   (PassageAttention.__init__ [1; 0])
                   (PassageAttention.__init__ [1; 7]) eq_refl eq_refl _)).
  intros [| [| i]] Hi; cbn in *; try discriminate; [split; reflexivity |].
  destruct i; discriminate.
Defined.

End ComparisonOutput.

(** ** More on span decoding *)

Section SpanDecodingMore.

Import DropLanguage.

Arguments tsum : simpl never.

Lemma exp_le_sum (x : Tensor1) (xi : R) :
  In xi x -> exp xi <= tsum (map exp x).
Proof.
  intros Hin.
  assert (Hnn : Forall (fun y => 0 <= y) (map exp x)).
  { apply Forall_map, Forall_forall. intros y _. apply Rlt_le, exp_pos. }
  destruct (nonneg_le_sum _ Hnn) as (_ & Hle).
  rewrite Forall_forall in Hle. apply Hle, in_map, Hin.
Qed.

Lemma log_softmax_nonpos (x : Tensor1) :
  Forall (fun lp => lp <= 0) (log_softmax x).
Proof.
  unfold log_softmax. apply Forall_map, Forall_forall. intros xi Hin.
  pose proof (exp_le_sum x xi Hin) as Hle.
  destruct (Rle_lt_or_eq_dec _ _ Hle) as [Hlt | Heq].
  - pose proof (ln_increasing _ _ (exp_pos xi) Hlt) as H.
    rewrite ln_exp in H. lra.
  - rewrite <- Heq, ln_exp. lra.
Qed.

Lemma exp_log_softmax (x : Tensor1) :
  x <> [] -> map exp (log_softmax x) = softmax x.
Proof.
  intros Hne. pose proof (tsum_map_exp_pos x Hne) as HS.
  unfold log_softmax, softmax. rewrite map_map. apply map_ext. intros xi.
  unfold Rminus, Rdiv. now rewrite exp_plus, exp_Ropp, exp_ln.
Qed.

Lemma masked_fill_forall (P : R -> Prop) (v : R) (x : Tensor1) :
  P v -> Forall P x -> forall m : list bool, Forall P (masked_fill x m v).
Proof.
  intros Hv Hx. unfold masked_fill.
  induction Hx as [| a x Ha _ IH]; intros [| b m]; simpl; constructor; auto.
  now destruct b.
Qed.

Lemma valid_mass_le (v : R) (mask : list bool) :
  forall lps : Tensor1,
    length lps = length mask ->
    valid_mass (replace_masked_values lps mask v) mask <= tsum (map exp lps).
Proof.
  unfold valid_mass, replace_masked_values, masked_fill.
  induction mask as [| b mask IH]; intros [| lp lps] Hlen; try discriminate.
  - simpl. lra.
  - simpl. rewrite !tsum_cons.
    pose proof (IH lps ltac:(simpl in Hlen; lia)).
    pose proof (exp_pos lp). destruct b; simpl; lra.
Qed.

Lemma valid_mass_all_valid (v : R) (mask : list bool) :
  Forall (fun b => b = true) mask ->
  forall lps : Tensor1,
    length lps = length mask ->
    valid_mass (replace_masked_values lps mask v) mask = tsum (map exp lps).
Proof.
  unfold valid_mass, replace_masked_values, masked_fill.
  induction 1 as [| b mask Hb _ IH]; intros [| lp lps] Hlen; try discriminate.
  - reflexivity.
  - subst b. simpl. rewrite !tsum_cons.
    now rewrite (IH lps) by (simpl in Hlen; lia).
Qed.

Lemma masked_log_softmax_mass (x : Tensor1) (mask : list bool) :
  length x = length mask ->
  tsum (map exp (masked_log_softmax x mask)) <= 1
  /\ (mask <> [] -> tsum (map exp (masked_log_softmax x mask)) = 1).
Proof.
  intros Hlen. unfold masked_log_softmax.
  set (y := tadd x _).
  assert (Hy : length y = length mask)
    by (unfold y, mask_float; rewrite tadd_length, !length_map, Hlen;
        apply Nat.min_id).
  destruct y as [| a y'] eqn:E.
  - split; [simpl; unfold tsum; simpl; lra |].
    intros Hne. destruct mask; [congruence | discriminate].
  - rewrite exp_log_softmax by discriminate.
    rewrite softmax_sum by discriminate. split; [lra | reflexivity].
Qed.

(** X22: [find_passageSpanAnswer] reads its attention inside the passage
    mask only: two inputs with the same loss whose attentions agree at every
    position inside the mask give the same span answer. *)
Theorem find_passageSpanAnswer_ignores_masked_attention :
  forall (self : t) (pa pa' : PassageAttention_answer.t),
    PassageAttention_answer.loss pa = PassageAttention_answer.loss pa' ->
    length (PassageAttention_answer._value pa)
    = length (PassageAttention_answer._value pa') ->
    (forall i,
        nth i (passage_mask self) false = true ->
        nth i (PassageAttention_answer._value pa) 0
        = nth i (PassageAttention_answer._value pa') 0) ->
    find_passageSpanAnswer self pa = find_passageSpanAnswer self pa'.
Proof.
  intros self pa pa' Hloss Hlen Hagree.
  unfold find_passageSpanAnswer, passage_span_logits.
  now rewrite (masked_attention_ext (passage_mask self) _ _ Hlen Hagree),
    Hloss.
Qed.

(** In [all_masked] no position is inside the mask, so the attention does
    not matter at all. *)
Lemma find_passageSpanAnswer_ignores_masked_attention_witness :
  find_passageSpanAnswer Examples.all_masked
    (PassageAttention_answer.__init__ [1; 1] 0)
  = find_passageSpanAnswer Examples.all_masked
      (PassageAttention_answer.__init__ [3; 4] 0).
Proof.
  refine (find_passageSpanAnswer_ignores_masked_attention Examples.all_masked
            (PassageAttention_answer.__init__ [1; 1] 0)
            (PassageAttention_answer.__init__ [3; 4] 0) eq_refl eq_refl _).
  intros [| [| i]] Hi; cbn in *; try discriminate.
  destruct i; discriminate.
Defined.

(** X23: when the predictor gives one pair of logits per passage token,
    every start and end log-probability that [find_passageSpanAnswer]
    returns is at most 0, and the probability mass of the positions inside
    the passage mask is at most 1, for the start and for the end; it is
    exactly 1 when the passage is not empty and no position is masked. *)
Theorem find_passageSpanAnswer_log_probs :
  forall (self : t) (pa : PassageAttention_answer.t),
    length (passage_span_logits self pa) = length (passage_mask self) ->
    Forall (fun lp => lp <= 0)
           (fst (PassageSpanAnswer._value (find_passageSpanAnswer self pa)))
    /\ Forall (fun lp => lp <= 0)
              (snd (PassageSpanAnswer._value (find_passageSpanAnswer self pa)))
    /\ valid_mass
         (fst (PassageSpanAnswer._value (find_passageSpanAnswer self pa)))
         (passage_mask self) <= 1
    /\ valid_mass
         (snd (PassageSpanAnswer._value (find_passageSpanAnswer self pa)))
         (passage_mask self) <= 1
    /\ (passage_mask self <> [] ->
        Forall (fun b => b = true) (passage_mask self) ->
        valid_mass
          (fst (PassageSpanAnswer._value (find_passageSpanAnswer self pa)))
          (passage_mask self) = 1
        /\ valid_mass
             (snd (PassageSpanAnswer._value (find_passageSpanAnswer self pa)))
             (passage_mask self) = 1).
Proof.
  intros self pa Hshape.
  unfold find_passageSpanAnswer.
  cbn [PassageSpanAnswer.__init__ PassageSpanAnswer._value fst snd].
  set (mask := passage_mask self) in *.
  set (sl := replace_masked_values (map fst _) mask (-1e32)).
  set (el := replace_masked_values (map snd _) mask (-1e32)).
  assert (Hsl : length sl = length mask)
    by (unfold sl; rewrite replace_masked_values_length, length_map, Hshape;
        apply Nat.min_id).
  assert (Hel : length el = length mask)
    by (unfold el; rewrite replace_masked_values_length, length_map, Hshape;
        apply Nat.min_id).
  assert (Hsp : length (masked_log_softmax sl mask) = length mask)
    by (rewrite masked_log_softmax_length, Hsl; apply Nat.min_id).
  assert (Hep : length (masked_log_softmax el mask) = length mask)
    by (rewrite masked_log_softmax_length, Hel; apply Nat.min_id).
  destruct (masked_log_softmax_mass sl mask Hsl) as (Hs1 & Hs2).
  destruct (masked_log_softmax_mass el mask Hel) as (He1 & He2).
  split; [| split; [| split; [| split]]].
  - apply masked_fill_forall; [lra | apply log_softmax_nonpos].
  - apply masked_fill_forall; [lra | apply log_softmax_nonpos].
  - eapply Rle_trans; [apply valid_mass_le; exact Hsp | exact Hs1].
  - eapply Rle_trans; [apply valid_mass_le; exact Hep | exact He1].
  - intros Hne Hall.
    rewrite !(valid_mass_all_valid _ mask Hall) by assumption.
    split; [exact (Hs2 Hne) | exact (He2 Hne)].
Qed.

(** The two-date passage, all of whose tokens are valid. *)
Lemma find_passageSpanAnswer_log_probs_witness :
  valid_mass
    (fst (PassageSpanAnswer._value
            (find_passageSpanAnswer Examples.two_dates
                                    Examples.answer_on_two_tokens)))
    [true; true] = 1.
Proof.
  destruct (find_passageSpanAnswer_log_probs Examples.two_dates
              Examples.answer_on_two_tokens eq_refl)
    as (_ & _ & _ & _ & Hall).
  exact (proj1 (Hall ltac:(discriminate) ltac:(repeat constructor))).
Defined.

End SpanDecodingMore.

(** ** Softmax before aggregation *)

Section SoftmaxBeforeAggregation.

Import DropLanguage.

Arguments tsum : simpl never.

Lemma date_buckets (self : t) (a : Tensor1) (j : nat) (d : Tensor1) :
  well_formed self ->
  compute_date_scores self a = Ok (d, d) ->
  nth j d 0
  = big_sum (length (passage_tokenidx2dateidx self))
      (fun k =>
         if (scatter_index (nth k (passage_tokenidx2dateidx self) (-1)%Z)
             =? Z.of_nat j)%Z
         then nth k (masked_softmax_memory_efficient
                       (passage_datetoken_attention self a)
                       (map (fun i => (i >? -1)%Z)
                            (passage_tokenidx2dateidx self))) 0
         else 0).
Proof.
  intros Hwf Hd.
  pose proof (date_token_probs_length self a Hwf) as Hlen.
  rewrite compute_date_scores_unfold in Hd.
  destruct (scatter_add_ _ _ _) as [r |] eqn:Hr; [| discriminate].
  cbn [bind] in Hd. injection Hd as <-.
  destruct Hwf as (Hidx & _).
  assert (Hsrc : length (masked_softmax_memory_efficient
                           (passage_datetoken_attention self a)
                           (map (fun i => (i >? -1)%Z)
                                (passage_tokenidx2dateidx self)))
                 = length (map scatter_index (passage_tokenidx2dateidx self)))
    by (rewrite length_map, Hlen, Hidx; reflexivity).
  rewrite (scatter_add_nth j _ _ _ _ Hsrc Hr).
  unfold new_zeros.
  replace (nth j (repeat 0 (num_passage_dates self)) 0) with 0
    by (symmetry; destruct (Nat.lt_ge_cases j (num_passage_dates self));
        [apply nth_repeat_lt; assumption
        | apply nth_overflow; rewrite repeat_length; assumption]).
  rewrite Rplus_0_l.
  rewrite (tsum_zipWith_big_sum _ _ _ 0%Z 0)
    by (rewrite length_map, Hlen, Hidx; reflexivity).
  rewrite length_map. apply big_sum_ext. intros k Hk.
  now rewrite (map_nth_in scatter_index _ k (-1)%Z 0%Z) by lia.
Qed.

Lemma tsum_map_exp_constant (c : R) (x : Tensor1) :
  Forall (fun s => s = c) x -> tsum (map exp x) = INR (length x) * exp c.
Proof.
  induction 1 as [| s x Hs _ IH].
  - unfold tsum; simpl; lra.
  - subst s. cbn [map]. rewrite tsum_cons, IH.
    change (length (c :: x)) with (S (length x)). rewrite S_INR. lra.
Qed.

Lemma softmax_constant (c : R) (x : Tensor1) (k : nat) :
  Forall (fun s => s = c) x -> (k < length x)%nat ->
  nth k (softmax x) 0 = / INR (length x).
Proof.
  intros Hc Hk. unfold softmax.
  rewrite (map_nth_in _ x k 0 0 Hk), (tsum_map_exp_constant c x Hc).
  rewrite Forall_forall in Hc. rewrite (Hc (nth k x 0)) by (apply nth_In, Hk).
  pose proof (exp_pos c).
  assert (0 < INR (length x)) by (apply lt_0_INR; lia).
  field. split; lra.
Qed.

Lemma masked_fill_nothing (x : Tensor1) (v : R) :
  forall m : list bool,
    Forall (fun b => b = false) m -> length m = length x ->
    masked_fill x m v = x.
Proof.
  unfold masked_fill.
  induction x as [| a x IH]; intros [| b m] Hm Hlen; try discriminate;
    [reflexivity |].
  inversion Hm; subst. simpl. f_equal. apply IH; [assumption |].
  simpl in Hlen. lia.
Qed.

(** X25: softmax comes before aggregation.  On a well-formed instance all
    of whose passage tokens are dates, when all tokens have the same score,
    the probability of a date is the share of the passage tokens that
    mention it: two mentions out of three tokens give 2/3, as the comment in
    the source says. *)
Theorem equal_scores_give_mention_shares :
  forall (self : t) (passage_attention : Tensor1) (c : R) (j : nat),
    well_formed self ->
    length passage_attention = length (passage_mask self) ->
    passage_mask self <> [] ->
    Forall (fun i => (i > -1)%Z) (passage_tokenidx2dateidx self) ->
    Forall (fun s => s = c)
           (passage_datetoken_attention self passage_attention) ->
    exists d,
      compute_date_scores self passage_attention = Ok (d, d)
      /\ nth j d 0
         = big_sum (length (passage_mask self))
             (fun k =>
                if (nth k (passage_tokenidx2dateidx self) (-1)%Z
                    =? Z.of_nat j)%Z
                then 1 else 0)
           / INR (length (passage_mask self)).
Proof.
  intros self a c j Hwf _ Hne Hdates Hc.
  destruct (compute_date_scores_spec self a Hwf) as (d & Hd & _).
  exists d. split; [exact Hd |].
  rewrite (date_buckets self a j d Hwf Hd).
  pose proof (passage_datetoken_attention_length self a Hwf) as Hpda.
  destruct Hwf as (Hidx & _).
  rewrite Hidx.
  unfold Rdiv. rewrite Rmult_comm, <- big_sum_scale.
  apply big_sum_ext. intros k Hk.
  assert (Hin : In (nth k (passage_tokenidx2dateidx self) (-1)%Z)
                   (passage_tokenidx2dateidx self))
    by (apply nth_In; lia).
  rewrite Forall_forall in Hdates. pose proof (Hdates _ Hin) as Hpos.
  assert (Hsi : scatter_index (nth k (passage_tokenidx2dateidx self) (-1)%Z)
                = nth k (passage_tokenidx2dateidx self) (-1)%Z).
  { unfold scatter_index.
    destruct (Z.gtb_spec (nth k (passage_tokenidx2dateidx self) (-1)%Z) (-1));
      cbn [b2z]; lia. }
  rewrite Hsi.
  destruct (_ =? _)%Z; [| lra].
  unfold masked_softmax_memory_efficient.
  rewrite masked_fill_nothing.
  - rewrite (softmax_constant c) by (assumption || lia).
    rewrite Hpda. lra.
  - apply Forall_map, Forall_map, Forall_forall. intros i Hi.
    apply negb_false_iff, Z.gtb_lt. pose proof (Hdates i Hi). lia.
  - now rewrite !length_map, Hpda.
Qed.

(** Three tokens, the first two of which mention the same date, with an
    attention of 0 everywhere: all scores are 0. *)
Lemma equal_scores_give_mention_shares_witness :
  exists d,
    compute_date_scores MoreExamples.repeated_date [0; 0; 0] = Ok (d, d)
    /\ nth 0 d 0 = 2 / 3.
Proof.
  assert (Hwf : well_formed MoreExamples.repeated_date)
    by (unfold well_formed; cbn; repeat split; repeat constructor).
  destruct (equal_scores_give_mention_shares MoreExamples.repeated_date
              [0; 0; 0] 0 0 Hwf eq_refl ltac:(discriminate))
    as (d & Hd & Hv).
  - repeat constructor.
  - cbn -[tanh]. unfold tsum. cbn -[tanh]. repeat constructor; lra.
  - exists d. split; [exact Hd |]. rewrite Hv.
    unfold big_sum, tsum. cbn. lra.
Defined.

End SoftmaxBeforeAggregation.
